(** * Semantic Tiles: the semantic processor

    A shallow embedding of [backend/app/core/semantic_processor.py]
    (class [SemanticProcessor]) and the properties of its distance
    engine, embedding resolver, cache and document glue.

    - NumPy [float64] values are IEEE-754 binary64 numbers, taken from
      the Standard Library's [SpecFloat] (precision 53, [emax] 1024).
    - A one-dimensional [np.ndarray] is a list of such numbers.
    - Python exceptions and the mutable processor state are threaded
      through a small state-and-exception monad.
    - The PDF reader and the OpenAI client are external: they appear as
      oracles of an environment record, and every call is logged. *)

From Stdlib Require Import ZArith List String Ascii Bool Lia.
From Stdlib Require Import Floats.SpecFloat.
From stdpp Require Import base option gmap strings list fin_maps.

Set Warnings "-clear-no-such-hyp".

Import ListNotations.
Local Open Scope string_scope.
Local Open Scope list_scope.

(** ** Python exceptions *)

Inductive exn : Type :=
| KeyError (key : string)
| IndexError (msg : string)
| ValueError (msg : string)
| TypeError (msg : string)
| OtherError (msg : string).

(** [str(e)] of an exception. *)
Definition str_exn (e : exn) : string :=
  match e with
  | KeyError k => "'" +:+ k +:+ "'"
  | IndexError m | ValueError m | TypeError m | OtherError m => m
  end.

(** A computation without state: a value or a raised exception. *)
Inductive res (A : Type) : Type :=
| Ok (a : A)
| Raise (e : exn).
Arguments Ok {A} a.
Arguments Raise {A} e.

(** ** binary64 numbers and Python numbers *)

Module Float.

Definition prec : Z := 53.
Definition emax : Z := 1024.

Abbreviation float := spec_float.

Definition add : float -> float -> float := SFadd prec emax.
Definition sub : float -> float -> float := SFsub prec emax.
Definition mul : float -> float -> float := SFmul prec emax.
Definition div : float -> float -> float := SFdiv prec emax.
Definition sqrt : float -> float := SFsqrt prec emax.

(** Conversion of a Python [int] to [float]: round to nearest even. *)
Definition of_int (z : Z) : float := binary_normalize prec emax z 0 false.

Definition zero : float := S754_zero false.
Definition one : float := Eval vm_compute in of_int 1.

(** [2 ^ e] for an exponent in the normal range. *)
Definition pow2 (e : Z) : float := S754_finite false 4503599627370496 (e - 52).

Definition is_nan (x : float) : bool :=
  match x with S754_nan => true | _ => false end.

Definition is_zero (x : float) : bool :=
  match x with S754_zero _ => true | _ => false end.

End Float.

Import Float.

(** A Python number as it flows through [_compute_distance]: the
    literals [0] and [1] are [int], the NumPy scalars and the literal
    [1.0] are floats. *)
Inductive pynum : Type :=
| PyInt (z : Z)
| PyFloat (f : float).

Definition to_float (x : pynum) : float :=
  match x with
  | PyInt z => of_int z
  | PyFloat f => f
  end.

(** Rich comparisons; a mixed comparison converts the [int] operand. *)
Definition py_compare (x y : pynum) : option comparison :=
  match x, y with
  | PyInt a, PyInt b => Some (Z.compare a b)
  | _, _ => SFcompare (to_float x) (to_float y)
  end.

Definition py_lt (x y : pynum) : bool :=
  match py_compare x y with Some Lt => true | _ => false end.
Definition py_gt (x y : pynum) : bool :=
  match py_compare x y with Some Gt => true | _ => false end.
Definition py_le (x y : pynum) : bool :=
  match py_compare x y with Some (Lt | Eq) => true | _ => false end.
Definition py_eq (x y : pynum) : bool :=
  match py_compare x y with Some Eq => true | _ => false end.

(** The builtins [min(a, b)] and [max(a, b)]: the first argument is kept
    unless the second compares strictly smaller (greater). *)
Definition py_min (a b : pynum) : pynum := if py_lt b a then b else a.
Definition py_max (a b : pynum) : pynum := if py_gt b a then b else a.

(** [1 - similarity] with a NumPy scalar on the right. *)
Definition py_rsub (a : Z) (x : float) : pynum := PyFloat (sub (of_int a) x).

Definition is_nan_num (x : pynum) : bool :=
  match x with PyFloat f => is_nan f | PyInt _ => false end.

(** Membership in the closed interval [[0, 1]]. *)
Definition in_unit_interval (x : pynum) : bool :=
  py_le (PyInt 0) x && py_le x (PyInt 1).

(** ** NumPy arrays *)

Module np.

(** One-dimensional [float64] array. *)
Abbreviation ndarray := (list float).

(** Accumulation of the elementwise products, in index order. *)
Definition dot_aligned (a b : ndarray) : float :=
  fold_left (fun acc xy => add acc (mul (fst xy) (snd xy))) (combine a b) zero.

(** [np.dot(a, b)]: shapes that are not aligned raise [ValueError]. *)
Definition dot (a b : ndarray) : res float :=
  if Nat.eqb (length a) (length b) then Ok (dot_aligned a b)
  else Raise (ValueError "shapes not aligned").

(** [np.linalg.norm(x)] of a vector: [sqrt(x.dot(x))]. *)
Definition norm (x : ndarray) : float := sqrt (dot_aligned x x).

(** [bool(arr)], as used by [not arr].  More than one element raises;
    one element gives that element's truth value; for the empty array
    the answer depends on the NumPy release (a deprecated [False], or
    an error), so it is a parameter. *)
Definition ambiguous_truth : exn :=
  ValueError
    "The truth value of an array with more than one element is ambiguous. Use a.any() or a.all()".

Definition truth (empty_truth : res bool) (a : ndarray) : res bool :=
  match a with
  | [] => empty_truth
  | [x] => Ok (negb (is_zero x))
  | _ :: _ :: _ => Raise ambiguous_truth
  end.

End np.

(** ** Cosine distance: [_compute_distance] *)

(** [np.dot(emb1, emb2) / (np.linalg.norm(emb1) * np.linalg.norm(emb2))];
    division of NumPy scalars never raises. *)
Definition similarity (emb1 emb2 : np.ndarray) : res float :=
  match np.dot emb1 emb2 with
  | Ok d => Ok (div d (mul (np.norm emb1) (np.norm emb2)))
  | Raise e => Raise e
  end.

(** [max(0, min(1, 1 - similarity))]. *)
Definition clamp (sim : float) : pynum :=
  py_max (PyInt 0) (py_min (PyInt 1) (py_rsub 1 sim)).

Definition _compute_distance (emb1 emb2 : np.ndarray) : pynum :=
  match similarity emb1 emb2 with
  | Ok sim => clamp sim
  | Raise _ => PyFloat one
  end.

(** ** Strings and paths *)

Definition newline : string := String (ascii_of_nat 10) EmptyString.

(** Truth value of a [str]: non-empty. *)
Definition truthy (s : string) : bool :=
  match s with EmptyString => false | String _ _ => true end.

(** The slice [s[:n]]. *)
Definition slice_to (n : N) (s : string) : string := substring 0 (N.to_nat n) s.

Definition startswith_sep (s : string) : bool :=
  match s with String c _ => Ascii.eqb c "/" | EmptyString => false end.

Fixpoint endswith_sep (s : string) : bool :=
  match s with
  | EmptyString => false
  | String c EmptyString => Ascii.eqb c "/"
  | String _ s' => endswith_sep s'
  end.

Module os_path.

(** [os.path.join(a, b)] for POSIX paths. *)
Definition join (a b : string) : string :=
  if startswith_sep b then b
  else if negb (truthy a) || endswith_sep a then a +:+ b
  else a +:+ "/" +:+ b.

(** [os.path.basename(p)]: what follows the last separator. *)
Fixpoint basename_from (acc s : string) : string :=
  match s with
  | EmptyString => acc
  | String c s' =>
      if Ascii.eqb c "/" then basename_from EmptyString s'
      else basename_from (acc +:+ String c EmptyString) s'
  end.

Definition basename (p : string) : string := basename_from EmptyString p.

End os_path.

(** ** Insertion-ordered dictionaries

    [item_embeddings] and [distances] are Python dicts whose iteration
    order is the order of first insertion. *)

Section ODict.
Context {K V : Type} `{EqDecision K}.

Definition odict : Type := list (K * V).

Fixpoint dict_set (k : K) (v : V) (d : odict) : odict :=
  match d with
  | [] => [(k, v)]
  | (k', v') :: d' =>
      if decide (k = k') then (k, v) :: d' else (k', v') :: dict_set k v d'
  end.

Fixpoint dict_get (k : K) (d : odict) : option V :=
  match d with
  | [] => None
  | (k', v') :: d' => if decide (k = k') then Some v' else dict_get k d'
  end.

Definition dict_keys (d : odict) : list K := map fst d.
Definition dict_values (d : odict) : list V := map snd d.

End ODict.
Arguments odict K V : clear implicits.

(** ** Processor state, external collaborators *)

(** An item is a dict with string keys; the values read by the processor
    are strings. *)
Abbreviation Item := (gmap string string).

(** The Distance Table: [(item1_id, item2_id)] to distance. *)
Abbreviation DistanceTable := (odict (string * string) pynum).

(** One [chat.completions.create] request. *)
Record ChatRequest : Type := {
  model : string;
  system_content : string;
  user_content : string;
  temperature : float;
  max_tokens : Z
}.

(** The fields of [self], and the log of the calls made to the external
    collaborators (oldest first). *)
Record State : Type := {
  upload_folder : string;
  openai_api_key : option string;
  embeddings_cache : gmap string np.ndarray;
  pdf_calls : list string;
  embedding_calls : list string;
  completion_calls : list ChatRequest
}.

(** The external collaborators.  Each oracle sees the calls made before
    it, so it need not answer the same request twice in the same way.
    - [PdfReader log path]: the pages of the document, each with the
      outcome of its [extract_text()], or a failure to open it;
    - [embeddings_create log input]: [response.data], a list of
      embeddings;
    - [chat_completions_create log request]: [response.choices], a list
      of message contents;
    - [OpenAI_new api_key]: the client constructor;
    - [empty_array_truth]: [bool(np.array([]))]. *)
Record Env : Type := {
  PdfReader : list string -> string -> res (list (res string));
  embeddings_create : list string -> string -> res (list np.ndarray);
  chat_completions_create : list ChatRequest -> ChatRequest -> res (list string);
  OpenAI_new : option string -> res unit;
  empty_array_truth : res bool
}.

(** ** The state-and-exception monad *)

Definition M (A : Type) : Type := State -> res A * State.

Definition ret {A} (a : A) : M A := fun s => (Ok a, s).

Definition bind {A B} (m : M A) (k : A -> M B) : M B :=
  fun s =>
    match m s with
    | (Ok a, s') => k a s'
    | (Raise e, s') => (Raise e, s')
    end.

Definition lift {A} (r : res A) : M A := fun s => (r, s).

Definition get : M State := fun s => (Ok s, s).

Definition modify (f : State -> State) : M unit := fun s => (Ok tt, f s).

(** [try: body except Exception as e: handler e]. *)
Definition try_except {A} (body : M A) (handler : exn -> M A) : M A :=
  fun s =>
    match body s with
    | (Ok a, s') => (Ok a, s')
    | (Raise e, s') => handler e s'
    end.

Declare Scope py_scope.
Delimit Scope py_scope with py.
Notation "x <- m ;; k" := (bind m (fun x => k))
  (at level 100, m at next level, right associativity) : py_scope.
Notation "m ;;; k" := (bind m (fun _ => k))
  (at level 100, right associativity) : py_scope.
Local Open Scope py_scope.

Definition set_cache (k : string) (v : np.ndarray) (s : State) : State :=
  {| upload_folder := upload_folder s;
     openai_api_key := openai_api_key s;
     embeddings_cache := <[k := v]> (embeddings_cache s);
     pdf_calls := pdf_calls s;
     embedding_calls := embedding_calls s;
     completion_calls := completion_calls s |}.

Definition log_pdf (p : string) (s : State) : State :=
  {| upload_folder := upload_folder s;
     openai_api_key := openai_api_key s;
     embeddings_cache := embeddings_cache s;
     pdf_calls := pdf_calls s ++ [p];
     embedding_calls := embedding_calls s;
     completion_calls := completion_calls s |}.

Definition log_embedding (t : string) (s : State) : State :=
  {| upload_folder := upload_folder s;
     openai_api_key := openai_api_key s;
     embeddings_cache := embeddings_cache s;
     pdf_calls := pdf_calls s;
     embedding_calls := embedding_calls s ++ [t];
     completion_calls := completion_calls s |}.

Definition log_completion (r : ChatRequest) (s : State) : State :=
  {| upload_folder := upload_folder s;
     openai_api_key := openai_api_key s;
     embeddings_cache := embeddings_cache s;
     pdf_calls := pdf_calls s;
     embedding_calls := embedding_calls s;
     completion_calls := completion_calls s ++ [r] |}.

(** ** The methods of [SemanticProcessor] *)

Definition getitem (item : Item) (k : string) : res string :=
  match item !! k with
  | Some v => Ok v
  | None => Raise (KeyError k)
  end.

(** [k in item and item[k]] *)
Definition has_truthy (item : Item) (k : string) : bool :=
  match item !! k with
  | Some v => truthy v
  | None => false
  end.

(** [seq[0]] *)
Definition first {A} (l : list A) : res A :=
  match l with
  | x :: _ => Ok x
  | [] => Raise (IndexError "list index out of range")
  end.

(** [for page in pdf.pages: text += page.extract_text() + "\n"] *)
Fixpoint extract_pages (pages : list (res string)) (text : string) : res string :=
  match pages with
  | [] => Ok text
  | Ok t :: rest => extract_pages rest (text +:+ t +:+ newline)
  | Raise e :: _ => Raise e
  end.

(** The literal [0.7]: the binary64 number nearest to 7/10. *)
Definition seven_tenths : float := Eval vm_compute in div (of_int 7) (of_int 10).

Definition summary_request (text : string) : ChatRequest :=
  {| model := "gpt-4";
     system_content :=
       "You are a helpful assistant that provides concise document summaries.";
     user_content :=
       "Please provide a short summary (maximum 200 words) of the following document:"
       +:+ newline +:+ newline +:+ slice_to 5000 text +:+ "...";
     temperature := seven_tenths;
     max_tokens := 250 |}.

Definition query_request (text query : string) : ChatRequest :=
  {| model := "gpt-4";
     system_content :=
       "You are a helpful assistant explaining concepts from documents.";
     user_content :=
       "Based on this document content:" +:+ newline +:+ newline
       +:+ slice_to 4000 text +:+ "..." +:+ newline +:+ newline
       +:+ "Question: " +:+ query;
     temperature := seven_tenths;
     max_tokens := 500 |}.

Definition cache_key_of (document_path : string) : string :=
  "doc:" +:+ document_path.

Definition document_summary_text (document_path text : string) : string :=
  "Document: " +:+ os_path.basename document_path +:+ newline +:+ newline
  +:+ "Content: " +:+ slice_to 2000 text.

Section Processor.
Variable env : Env.

(** [SemanticProcessor(upload_folder)], with [getenv] the value of
    [os.getenv('OPENAI_API_KEY')]. *)
Definition __init__ (folder : string) (getenv : option string) : res State :=
  match OpenAI_new env getenv with
  | Ok _ =>
      Ok {| upload_folder := folder;
            openai_api_key := getenv;
            embeddings_cache := ∅;
            pdf_calls := [];
            embedding_calls := [];
            completion_calls := [] |}
  | Raise e => Raise e
  end.

(** The three calls that leave the process; each is logged. *)
Definition call_PdfReader (pdf_path : string) : M (list (res string)) :=
  s <- get ;;
  modify (log_pdf pdf_path) ;;;
  lift (PdfReader env (pdf_calls s) pdf_path).

Definition call_embeddings_create (input : string) : M (list np.ndarray) :=
  s <- get ;;
  modify (log_embedding input) ;;;
  lift (embeddings_create env (embedding_calls s) input).

Definition call_chat_completions_create (r : ChatRequest) : M (list string) :=
  s <- get ;;
  modify (log_completion r) ;;;
  lift (chat_completions_create env (completion_calls s) r).

Definition _extract_text_from_pdf (pdf_path : string) : M string :=
  try_except
    (pages <- call_PdfReader pdf_path ;;
     lift (extract_pages pages ""))
    (fun _ => ret "").

Definition _get_text_embedding (text : string) : M (option np.ndarray) :=
  try_except
    (data <- call_embeddings_create (slice_to 8191 text) ;;
     embedding <- lift (first data) ;;
     ret (Some embedding))
    (fun _ => ret None).

Definition _get_document_embedding (document_path : string) : M (option np.ndarray) :=
  try_except
    (let cache_key := cache_key_of document_path in
     s <- get ;;
     match embeddings_cache s !! cache_key with
     | Some cached => ret (Some cached)
     | None =>
         let full_path := os_path.join (upload_folder s) document_path in
         text <- _extract_text_from_pdf full_path ;;
         if negb (truthy text) then ret None
         else
           embedding <- _get_text_embedding (document_summary_text document_path text) ;;
           match embedding with
           | Some e => modify (set_cache cache_key e) ;;; ret embedding
           | None => ret embedding
           end
     end)
    (fun _ => ret None).

(** [not embedding] for an [Optional[np.ndarray]]. *)
Definition not_embedding (embedding : option np.ndarray) : res bool :=
  match embedding with
  | None => Ok true
  | Some a =>
      match np.truth (empty_array_truth env) a with
      | Ok b => Ok (negb b)
      | Raise e => Raise e
      end
  end.

(** The body of the first loop of [compute_distances] up to the
    [is not None] test: the embedding chosen for one item. *)
Definition resolve (item : Item) : M (option np.ndarray) :=
  embedding <-
    (if has_truthy item "documentPath" then
       document_path <- lift (getitem item "documentPath") ;;
       _get_document_embedding document_path
     else ret None) ;;
  absent <- lift (not_embedding embedding) ;;
  if (absent : bool) then
    text <- lift (getitem item "name") ;;
    _get_text_embedding
      (if has_truthy item "description"
       then text +:+ ": " +:+ default "" (item !! "description")
       else text)
  else ret embedding.

(** [for item in items: ...] filling [item_embeddings]. *)
Fixpoint embed_items (items : list Item) (item_embeddings : odict string np.ndarray)
  : M (odict string np.ndarray) :=
  match items with
  | [] => ret item_embeddings
  | item :: rest =>
      embedding <- resolve item ;;
      match embedding with
      | Some e =>
          id <- lift (getitem item "id") ;;
          embed_items rest (dict_set id e item_embeddings)
      | None =>
          lift (getitem item "name") ;;;
          embed_items rest item_embeddings
      end
  end.

End Processor.

(** [item_embeddings[k]] *)
Definition lookup_embedding (item_embeddings : odict string np.ndarray) (k : string)
  : res np.ndarray :=
  match dict_get k item_embeddings with
  | Some e => Ok e
  | None => Raise (KeyError k)
  end.

(** [for item2_id in list(item_embeddings.keys())[i+1:]: ...] *)
Fixpoint inner_loop (item_embeddings : odict string np.ndarray)
    (item1_id : string) (item1_embedding : np.ndarray)
    (ids : list string) (distances : DistanceTable) : res DistanceTable :=
  match ids with
  | [] => Ok distances
  | item2_id :: rest =>
      match lookup_embedding item_embeddings item2_id with
      | Ok item2_embedding =>
          inner_loop item_embeddings item1_id item1_embedding rest
            (dict_set (item1_id, item2_id)
               (_compute_distance item1_embedding item2_embedding) distances)
      | Raise e => Raise e
      end
  end.

(** [enumerate(l)], counting from [i]. *)
Fixpoint enumerate_from {A} (i : nat) (l : list A) : list (nat * A) :=
  match l with
  | [] => []
  | x :: rest => (i, x) :: enumerate_from (S i) rest
  end.

(** [for i, item1_id in enumerate(item_embeddings.keys()): ...] *)
Fixpoint outer_loop (item_embeddings : odict string np.ndarray)
    (indexed : list (nat * string)) (distances : DistanceTable) : res DistanceTable :=
  match indexed with
  | [] => Ok distances
  | (i, item1_id) :: rest =>
      match lookup_embedding item_embeddings item1_id with
      | Ok item1_embedding =>
          match inner_loop item_embeddings item1_id item1_embedding
                  (drop (S i) (dict_keys item_embeddings)) distances with
          | Ok distances' => outer_loop item_embeddings rest distances'
          | Raise e => Raise e
          end
      | Raise e => Raise e
      end
  end.

Definition pairwise (item_embeddings : odict string np.ndarray) : res DistanceTable :=
  outer_loop item_embeddings (enumerate_from 0 (dict_keys item_embeddings)) [].

Section Public.
Variable env : Env.

(** The [try] block of [compute_distances]. *)
Definition compute_distances_body (items : list Item) : M DistanceTable :=
  item_embeddings <- embed_items env items [] ;;
  lift (pairwise item_embeddings).

Definition compute_distances (items : list Item) (level_id : option string)
  : M DistanceTable :=
  try_except (compute_distances_body items) (fun _ => ret []).

(** [response.choices[0].message.content] of a completion. *)
Definition complete (r : ChatRequest) : M string :=
  choices <- call_chat_completions_create env r ;;
  lift (first choices).

Definition get_document_summary (document_path : string) : M string :=
  try_except
    (s <- get ;;
     let full_path := os_path.join (upload_folder s) document_path in
     text <- _extract_text_from_pdf env full_path ;;
     if negb (truthy text) then ret "Could not extract text from document"
     else complete (summary_request text))
    (fun e => ret ("Error summarizing document: " +:+ str_exn e)).

Definition process_document_query (document_path query : string) : M string :=
  try_except
    (s <- get ;;
     if negb (from_option truthy false (openai_api_key s))
     then ret "OpenAI API key not configured"
     else
       let full_path := os_path.join (upload_folder s) document_path in
       text <- _extract_text_from_pdf env full_path ;;
       if negb (truthy text) then ret "Could not extract text from document"
       else complete (query_request text query))
    (fun e => ret ("Error processing query: " +:+ str_exn e)).

End Public.

(** ** Vocabulary of the statements *)

(** A float that is a zero or a NaN. *)
Definition zero_or_nan (x : float) : bool := is_zero x || is_nan x.

(** A vector all of whose components are zeros. *)
Definition zero_vector (a : np.ndarray) : bool := forallb is_zero a.

(** What [_extract_text_from_pdf], [_get_text_embedding] and
    [_get_document_embedding] return in a given state. *)
Definition extract_result (env : Env) (pdf_path : string) (s : State) : string :=
  match PdfReader env (pdf_calls s) pdf_path with
  | Ok pages => match extract_pages pages "" with Ok t => t | Raise _ => "" end
  | Raise _ => ""
  end.

Definition embedding_result (env : Env) (text : string) (s : State)
  : option np.ndarray :=
  match embeddings_create env (embedding_calls s) (slice_to 8191 text) with
  | Ok (e :: _) => Some e
  | _ => None
  end.

Definition document_embedding_result (env : Env) (document_path : string) (s : State)
  : option np.ndarray * State :=
  match embeddings_cache s !! cache_key_of document_path with
  | Some cached => (Some cached, s)
  | None =>
      let full_path := os_path.join (upload_folder s) document_path in
      let text := extract_result env full_path s in
      let s1 := log_pdf full_path s in
      if truthy text then
        let summary := document_summary_text document_path text in
        let s2 := log_embedding (slice_to 8191 summary) s1 in
        match embedding_result env summary s1 with
        | Some e => (Some e, set_cache (cache_key_of document_path) e s2)
        | None => (None, s2)
        end
      else (None, s1)
  end.

(** The cache keys that the items of a call can give rise to. *)
Definition doc_keys (items : list Item) : list string :=
  omap (fun item : Item => cache_key_of <$> item !! "documentPath") items.

(** The pairs [(k1, k2)] with [k1] before [k2] in [ks], in the order in
    which the two loops visit them, and the table entry of a pair. *)
Fixpoint all_pairs (ks : list string) : list (string * string) :=
  match ks with
  | [] => []
  | k :: rest => map (pair k) rest ++ all_pairs rest
  end.

Definition entry (item_embeddings : odict string np.ndarray) (p : string * string)
  : (string * string) * pynum :=
  (p, _compute_distance (default [] (dict_get p.1 item_embeddings))
                        (default [] (dict_get p.2 item_embeddings))).

(** [s'] is a later state of the processor whose state was [s]: same
    configuration, every cache entry still there, every log extended. *)
Record extends (s s' : State) : Prop := {
  ext_folder : upload_folder s' = upload_folder s;
  ext_key : openai_api_key s' = openai_api_key s;
  ext_cache : embeddings_cache s ⊆ embeddings_cache s';
  ext_pdf : pdf_calls s `prefix_of` pdf_calls s';
  ext_embedding : embedding_calls s `prefix_of` embedding_calls s';
  ext_completion : completion_calls s `prefix_of` completion_calls s'
}.

(** ** A small concrete world

    One document can be read, the text ["Bad"] cannot be embedded, and
    embeddings have two components. *)

Definition unit_x : np.ndarray := [one; zero].
Definition unit_y : np.ndarray := [zero; one].

(** The client constructor of the [openai] package as line 35 calls
    it, with the value of [os.getenv('OPENAI_API_KEY')]: given no key
    it looks the variable up itself, finds it absent as well, and
    raises; any string, the empty one included, is accepted. *)
Definition missing_api_key : exn :=
  OtherError
    "The api_key client option must be set either by passing api_key to the client or by setting the OPENAI_API_KEY environment variable".

Definition openai_client (api_key : option string) : res unit :=
  match api_key with
  | None => Raise missing_api_key
  | Some _ => Ok tt
  end.

Definition demo_env : Env :=
  {| PdfReader := fun _ path =>
       if String.eqb path "uploads/cat.pdf" then Ok [Ok "Tiles"]
       else Raise (OtherError "No such file");
     embeddings_create := fun _ text =>
       if String.eqb text "Bad" then Raise (OtherError "Bad request")
       else Ok [if String.eqb text "Dog" then unit_y else unit_x];
     chat_completions_create := fun _ _ => Ok ["A summary."];
     OpenAI_new := openai_client;
     empty_array_truth := Ok false |}.

(** The same world with one-component embeddings: [[0.0]] for a
    document, [[1.0]] for a name. *)
Definition scalar_env : Env :=
  {| PdfReader := PdfReader demo_env;
     embeddings_create := fun _ text =>
       Ok [if String.eqb text "Cat" then [one] else [zero]];
     chat_completions_create := chat_completions_create demo_env;
     OpenAI_new := OpenAI_new demo_env;
     empty_array_truth := empty_array_truth demo_env |}.

Definition demo_state : State :=
  {| upload_folder := "uploads";
     openai_api_key := Some "sk-test";
     embeddings_cache := ∅;
     pdf_calls := [];
     embedding_calls := [];
     completion_calls := [] |}.

(** The processor constructed while [OPENAI_API_KEY] was set to the
    empty string. *)
Definition empty_key_state : State :=
  {| upload_folder := "uploads";
     openai_api_key := Some "";
     embeddings_cache := ∅;
     pdf_calls := [];
     embedding_calls := [];
     completion_calls := [] |}.

Definition item_doc : Item :=
  {[ "id" := "a"; "name" := "Cat"; "documentPath" := "cat.pdf" ]}.
Definition item_cat : Item := {[ "id" := "a"; "name" := "Cat" ]}.
Definition item_dog : Item := {[ "id" := "b"; "name" := "Dog" ]}.
Definition item_car : Item := {[ "id" := "c"; "name" := "Car" ]}.
Definition item_bad : Item := {[ "id" := "a"; "name" := "Bad" ]}.
Definition item_nameless : Item := {[ "id" := "a" ]}.

(** [2 ^ -600]: its square is below the smallest subnormal number. *)
Definition tiny : float := pow2 (-600).

(** ** Vocabulary of the further properties *)

(** The text embedded for an item on the name/description path:
    [item['name']], followed by [": " + item['description']] when the
    description is present and non-empty. *)
Definition item_text (item : Item) : string :=
  let text := default "" (item !! "name") in
  if has_truthy item "description"
  then text +:+ ": " +:+ default "" (item !! "description")
  else text.

(** An item with an id and a name and no usable document path. *)
Definition plain (item : Item) : bool :=
  negb (has_truthy item "documentPath")
  && bool_decide (is_Some (item !! "name"))
  && bool_decide (is_Some (item !! "id")).

Definition item_ids (items : list Item) : list string :=
  map (fun it : Item => default "" (it !! "id")) items.

(** The page texts, each followed by a newline. *)
Definition join_pages (texts : list string) : string :=
  fold_right (fun t acc => t +:+ newline +:+ acc) "" texts.

(** Between [s] and [s'] at most [n] documents were opened and at most
    [m] texts were sent to the embedding provider, each of at most 8191
    characters; no completion was requested. *)
Record costs (n m : nat) (s s' : State) : Prop := {
  cost_pdf : exists l, pdf_calls s' = pdf_calls s ++ l /\ length l <= n;
  cost_embedding :
    exists l, embedding_calls s' = embedding_calls s ++ l /\ length l <= m /\
              Forall (fun t => String.length t <= N.to_nat 8191) l;
  cost_completion : completion_calls s' = completion_calls s
}.

(** A world in which one document has an unreadable second page and the
    completion provider times out. *)
Definition faulty_env : Env :=
  {| PdfReader := fun log path =>
       if String.eqb path "uploads/torn.pdf"
       then Ok [Ok "Tiles"; Raise (OtherError "Unreadable page")]
       else PdfReader demo_env log path;
     embeddings_create := embeddings_create demo_env;
     chat_completions_create := fun _ _ => Raise (OtherError "Request timed out");
     OpenAI_new := OpenAI_new demo_env;
     empty_array_truth := empty_array_truth demo_env |}.

Definition item_lost : Item :=
  {[ "id" := "a"; "name" := "Cat"; "documentPath" := "missing.pdf" ]}.

Definition nan_vector : np.ndarray := [S754_nan; one].

(** * Properties *)

(** ** binary64 arithmetic *)

Lemma mul_comm x y : mul x y = mul y x.
Proof.
  unfold mul.
  destruct x as [sx|sx| |sx mx ex], y as [sy|sy| |sy my ey]; simpl;
    rewrite ?(xorb_comm sx sy); try reflexivity.
  now rewrite (Pos.mul_comm mx my), (Z.add_comm ex ey).
Qed.

Lemma SFcompare_zero_r x c :
  SFcompare x (S754_zero false) = Some c ->
  SFcompare (S754_zero false) x = Some (CompOpp c).
Proof.
  destruct x as [s|[]| |[] m e]; simpl; intros H; inversion H; reflexivity.
Qed.

Lemma mul_zero_l x y : is_zero x = true -> zero_or_nan (mul x y) = true.
Proof. destruct x; try discriminate. destruct y; reflexivity. Qed.

Lemma mul_zero_or_nan_l x y : zero_or_nan x = true -> zero_or_nan (mul x y) = true.
Proof. destruct x; try discriminate; destruct y; reflexivity. Qed.

Lemma add_zero_or_nan x y :
  zero_or_nan x = true -> zero_or_nan y = true -> zero_or_nan (add x y) = true.
Proof.
  destruct x as [[]| | |]; try discriminate;
    destruct y as [[]| | |]; try discriminate; reflexivity.
Qed.

Lemma sqrt_zero_or_nan x : zero_or_nan x = true -> zero_or_nan (sqrt x) = true.
Proof. destruct x; try discriminate; reflexivity. Qed.

Lemma div_zero_or_nan x y :
  zero_or_nan x = true -> zero_or_nan y = true -> div x y = S754_nan.
Proof. destruct x; try discriminate; destruct y; try discriminate; reflexivity. Qed.

(** ** Cosine distance *)

Lemma dot_aligned_comm a b : np.dot_aligned a b = np.dot_aligned b a.
Proof.
  unfold np.dot_aligned. generalize zero as acc.
  revert b. induction a as [|x a IH]; intros [|y b] acc; simpl; try reflexivity.
  rewrite (mul_comm x y). apply IH.
Qed.

Lemma similarity_comm a b : similarity a b = similarity b a.
Proof.
  unfold similarity, np.dot. rewrite (Nat.eqb_sym (length b)).
  destruct (Nat.eqb (length a) (length b)); [|reflexivity].
  now rewrite dot_aligned_comm, (mul_comm (np.norm a)).
Qed.

Lemma _compute_distance_comm a b : _compute_distance a b = _compute_distance b a.
Proof. unfold _compute_distance. now rewrite similarity_comm. Qed.

(** C8: for vectors of equal dimension the distance does not depend on
    the order of its two arguments. *)
Theorem distance_symmetric (a b : np.ndarray) :
  length a = length b -> _compute_distance a b = _compute_distance b a.
Proof. intros _. apply _compute_distance_comm. Qed.

Lemma distance_symmetric_witness :
  length unit_x = length unit_y /\
  _compute_distance unit_x unit_y = _compute_distance unit_y unit_x.
Proof.
  split; [reflexivity | apply (distance_symmetric unit_x unit_y); reflexivity].
Defined.

(** The clamp returns the literal [0], the literal [1], or a float
    strictly between them. *)
Lemma clamp_cases sim :
  clamp sim = PyInt 0 \/ clamp sim = PyInt 1 \/
  (clamp sim = py_rsub 1 sim /\ py_lt (py_rsub 1 sim) (PyInt 1) = true
     /\ py_gt (py_rsub 1 sim) (PyInt 0) = true).
Proof.
  unfold clamp, py_min, py_max.
  destruct (py_lt (py_rsub 1 sim) (PyInt 1)) eqn:Hlt.
  - destruct (py_gt (py_rsub 1 sim) (PyInt 0)) eqn:Hgt; auto.
  - right. left. reflexivity.
Qed.

Lemma clamp_in_unit_interval sim : in_unit_interval (clamp sim) = true.
Proof.
  destruct (clamp_cases sim) as [-> | [-> | (-> & Hlt & Hgt)]]; try reflexivity.
  unfold in_unit_interval, py_le, py_lt, py_gt in *.
  destruct (py_compare (py_rsub 1 sim) (PyInt 1)) as [[]|]; try discriminate.
  rewrite andb_true_r.
  unfold py_rsub, py_compare, to_float in *.
  change (of_int 0) with (S754_zero false) in *.
  destruct (SFcompare (sub (of_int 1) sim) (S754_zero false)) as [[]|] eqn:E;
    try discriminate.
  now rewrite (SFcompare_zero_r _ _ E).
Qed.

Lemma _compute_distance_in_unit_interval a b :
  in_unit_interval (_compute_distance a b) = true.
Proof.
  unfold _compute_distance.
  destruct (similarity a b); [apply clamp_in_unit_interval | reflexivity].
Qed.

Example clamp_above : clamp (of_int 2) = PyInt 0.
Proof. vm_compute. reflexivity. Qed.

Example clamp_below : clamp (of_int (-2)) = PyInt 1.
Proof. vm_compute. reflexivity. Qed.

Example clamp_nan : clamp S754_nan = PyInt 1.
Proof. vm_compute. reflexivity. Qed.

Example distance_orthogonal : _compute_distance unit_x unit_y = PyInt 1.
Proof. vm_compute. reflexivity. Qed.

Example distance_identical : _compute_distance unit_x unit_x = PyInt 0.
Proof. vm_compute. reflexivity. Qed.

(** *** Degenerate vectors *)

Lemma dot_aligned_zero_l a b :
  zero_vector a = true -> zero_or_nan (np.dot_aligned a b) = true.
Proof.
  unfold np.dot_aligned.
  assert (H : zero_or_nan zero = true) by reflexivity. revert H.
  generalize zero as acc. revert b.
  induction a as [|x a IH]; intros [|y b] acc Hacc Ha; simpl; auto.
  simpl in Ha. apply andb_true_iff in Ha as [Hx Ha].
  apply IH; [|assumption].
  apply add_zero_or_nan; [assumption|]. now apply mul_zero_l.
Qed.

Lemma similarity_zero_l a b :
  zero_vector a = true -> length a = length b -> similarity a b = Ok S754_nan.
Proof.
  intros Ha Hlen. unfold similarity, np.dot. rewrite Hlen, Nat.eqb_refl.
  f_equal. apply div_zero_or_nan.
  - now apply dot_aligned_zero_l.
  - apply mul_zero_or_nan_l, sqrt_zero_or_nan. now apply dot_aligned_zero_l.
Qed.

Lemma distance_of_nan a b :
  similarity a b = Ok S754_nan -> _compute_distance a b = PyInt 1.
Proof. unfold _compute_distance. intros ->. reflexivity. Qed.

Lemma distance_of_mismatch a b :
  length a <> length b -> _compute_distance a b = PyFloat one.
Proof.
  intros H. unfold _compute_distance, similarity, np.dot.
  destruct (Nat.eqb_spec (length a) (length b)); [contradiction|reflexivity].
Qed.

Lemma distance_zero_l a b :
  zero_vector a = true ->
  _compute_distance a b = PyInt 1 \/ _compute_distance a b = PyFloat one.
Proof.
  intros Ha. destruct (Nat.eq_dec (length a) (length b)) as [Hlen|Hlen].
  - left. now apply distance_of_nan, similarity_zero_l.
  - right. now apply distance_of_mismatch.
Qed.

(** C7, as stated, fails: the vector [[2^-600]] has the computed norm
    [0.0] (its square underflows), its similarity to [[1.0]] is
    [+inf], and the distance returned is [0], not [1.0]. *)
Lemma underflowed_norm_distance_zero :
  is_zero (np.norm [tiny]) = true /\
  similarity [tiny] [one] = Ok (S754_infinity false) /\
  _compute_distance [tiny] [one] = PyInt 0 /\
  py_eq (_compute_distance [tiny] [one]) (PyFloat one) = false.
Proof. vm_compute. repeat split; reflexivity. Qed.

(** C7, amended: when one of the two vectors is a zero vector, or the
    dimensions differ, or the similarity computed is NaN, the distance
    returned equals [1.0] (the [int] 1 from the clamp, or the [float]
    1.0 from the handler) and is not a NaN.  Nothing is raised:
    [_compute_distance] returns a number on every input. *)
Theorem degenerate_distance_is_one (a b : np.ndarray) :
  zero_vector a = true \/ zero_vector b = true \/
  length a <> length b \/ similarity a b = Ok S754_nan ->
  py_eq (_compute_distance a b) (PyFloat one) = true /\
  is_nan_num (_compute_distance a b) = false.
Proof.
  intros H.
  assert (Hd : _compute_distance a b = PyInt 1 \/ _compute_distance a b = PyFloat one).
  { destruct H as [Ha | [Hb | [Hlen | Hnan]]].
    - now apply distance_zero_l.
    - rewrite _compute_distance_comm. now apply distance_zero_l.
    - right. now apply distance_of_mismatch.
    - left. now apply distance_of_nan. }
  destruct Hd as [-> | ->]; split; reflexivity.
Qed.

Lemma degenerate_distance_is_one_witness :
  (zero_vector [zero; zero] = true \/ zero_vector unit_x = true \/
   length [zero; zero] <> length unit_x \/
   similarity [zero; zero] unit_x = Ok S754_nan) /\
  py_eq (_compute_distance [zero; zero] unit_x) (PyFloat one) = true /\
  is_nan_num (_compute_distance [zero; zero] unit_x) = false.
Proof.
  split; [left; reflexivity |].
  apply (degenerate_distance_is_one [zero; zero] unit_x). left. reflexivity.
Defined.

(** ** Insertion-ordered dictionaries *)

Section DictFacts.
Context {K V : Type} `{EqDecision K}.
Implicit Types (d : odict K V) (k : K) (v : V).

Lemma dict_set_fresh k v d : k ∉ dict_keys d -> dict_set k v d = d ++ [(k, v)].
Proof.
  induction d as [|[k' v'] d IH]; simpl; intros Hk; [reflexivity|].
  apply not_elem_of_cons in Hk as [Hne Hk].
  destruct (decide (k = k')); [contradiction|]. now rewrite IH.
Qed.

Lemma dict_keys_set k v d :
  dict_keys (dict_set k v d)
  = if decide (k ∈ dict_keys d) then dict_keys d else dict_keys d ++ [k].
Proof.
  induction d as [|[k' v'] d IH]; simpl.
  - destruct (decide (k ∈ [])) as [H0|]; [inversion H0|reflexivity].
  - destruct (decide (k = k')) as [->|Hne]; simpl.
    + destruct (decide (k' ∈ k' :: dict_keys d)) as [|Hn]; [reflexivity|].
      exfalso. apply Hn. left.
    + rewrite IH. destruct (decide (k ∈ dict_keys d)) as [Hin|Hnin].
      * destruct (decide (k ∈ k' :: dict_keys d)) as [|Hn]; [reflexivity|].
        exfalso. apply Hn. now right.
      * destruct (decide (k ∈ k' :: dict_keys d)) as [Hin'|]; [|reflexivity].
        apply elem_of_cons in Hin' as [?|?]; contradiction.
Qed.

(** Keys stay pairwise distinct. *)
Lemma dict_set_NoDup k v d : NoDup (dict_keys d) -> NoDup (dict_keys (dict_set k v d)).
Proof.
  intros Hd. rewrite dict_keys_set. destruct (decide (k ∈ dict_keys d)); [assumption|].
  apply NoDup_app. split; [assumption|]. split.
  - intros x Hx Hx'. apply list_elem_of_singleton in Hx'. now subst.
  - apply NoDup_singleton.
Qed.

Lemma dict_get_is_Some k d : k ∈ dict_keys d -> is_Some (dict_get k d).
Proof.
  induction d as [|[k' v'] d IH]; simpl; intros Hk; [inversion Hk|].
  destruct (decide (k = k')); [eauto|].
  apply elem_of_cons in Hk as [?|?]; [contradiction|auto].
Qed.

Lemma dict_get_set_eq k v d : dict_get k (dict_set k v d) = Some v.
Proof.
  induction d as [|[k' v'] d IH]; simpl.
  - now destruct (decide (k = k)).
  - destruct (decide (k = k')) as [->|Hne]; simpl.
    + now destruct (decide (k' = k')).
    + now destruct (decide (k = k')).
Qed.

End DictFacts.

(** ** The pairwise loops *)

Lemma lookup_embedding_in ie k :
  k ∈ dict_keys ie -> lookup_embedding ie k = Ok (default [] (dict_get k ie)).
Proof.
  intros Hk. unfold lookup_embedding.
  destruct (dict_get_is_Some k ie Hk) as [e ->]. reflexivity.
Qed.

Lemma entry_keys ie l : dict_keys (map (entry ie) l) = l.
Proof. induction l as [|p l IH]; simpl; [reflexivity|]. now rewrite IH. Qed.

Lemma elem_of_pairs (k : string) (ks : list string) p :
  p ∈ map (pair k) ks -> p.1 = k.
Proof.
  induction ks as [|x ks IH]; simpl; intros Hp; [inversion Hp|].
  apply elem_of_cons in Hp as [->|Hp]; auto.
Qed.

(** The inner loop appends one entry per remaining key. *)
Lemma inner_loop_spec ie k1 ids : forall d,
  ids ⊆ dict_keys ie -> NoDup ids ->
  (forall id, id ∈ ids -> (k1, id) ∉ dict_keys d) ->
  inner_loop ie k1 (default [] (dict_get k1 ie)) ids d
  = Ok (d ++ map (entry ie) (map (pair k1) ids)).
Proof.
  induction ids as [|id ids IH]; intros d Hsub Hnd Hfresh; simpl.
  - now rewrite app_nil_r.
  - rewrite lookup_embedding_in by (apply Hsub; left).
    inversion Hnd as [|? ? Hid Hnd']; subst.
    rewrite dict_set_fresh by (apply Hfresh; left).
    rewrite IH.
    + now rewrite <- app_assoc.
    + intros x Hx. apply Hsub. now right.
    + assumption.
    + intros id' Hid'. unfold dict_keys. rewrite map_app. simpl.
      intros Hin. apply elem_of_app in Hin as [Hin|Hin].
      * apply (Hfresh id'); [now right|exact Hin].
      * apply list_elem_of_singleton in Hin. inversion Hin; subst. contradiction.
Qed.

(** The outer loop, started at position [length pre] of the keys. *)
Lemma outer_loop_spec ie ks : forall pre d,
  dict_keys ie = pre ++ ks -> NoDup (dict_keys ie) ->
  (forall p, p ∈ dict_keys d -> p.1 ∈ pre) ->
  outer_loop ie (enumerate_from (length pre) ks) d
  = Ok (d ++ map (entry ie) (all_pairs ks)).
Proof.
  induction ks as [|k ks IH]; intros pre d Hkeys Hnd Hd; simpl.
  - now rewrite app_nil_r.
  - assert (Hk : k ∈ dict_keys ie) by (rewrite Hkeys; apply elem_of_app; right; left).
    rewrite lookup_embedding_in by exact Hk.
    assert (Hdrop : drop (S (length pre)) (dict_keys ie) = ks).
    { rewrite Hkeys, (cons_middle k pre ks), app_assoc.
      apply drop_app_length'. rewrite length_app. simpl. lia. }
    rewrite Hdrop. clear Hdrop.
    rewrite Hkeys in Hnd. apply NoDup_app in Hnd as (Hpre & Hdisj & Hkks).
    inversion Hkks as [|? ? Hkn Hks]; subst.
    rewrite inner_loop_spec.
    + replace (S (length pre)) with (length (pre ++ [k]))
        by (rewrite length_app; simpl; lia).
      rewrite IH.
      * rewrite map_app, <- app_assoc. reflexivity.
      * now rewrite <- app_assoc.
      * rewrite Hkeys. apply NoDup_app. auto using NoDup_cons_2.
      * intros p Hp. unfold dict_keys in Hp. rewrite map_app in Hp.
        apply elem_of_app in Hp as [Hp|Hp].
        -- apply elem_of_app. left. now apply Hd.
        -- apply elem_of_app. right. apply list_elem_of_singleton.
           fold (dict_keys (map (entry ie) (map (pair k) ks))) in Hp.
           rewrite entry_keys in Hp. now apply elem_of_pairs in Hp.
    + intros x Hx. rewrite Hkeys. apply elem_of_app. right. now right.
    + assumption.
    + intros id Hid Hin. apply Hd in Hin. simpl in Hin.
      apply (Hdisj k Hin). left.
Qed.

Lemma pairwise_spec ie :
  NoDup (dict_keys ie) ->
  pairwise ie = Ok (map (entry ie) (all_pairs (dict_keys ie))).
Proof.
  intros Hnd. unfold pairwise.
  apply (outer_loop_spec ie (dict_keys ie) [] []); [reflexivity|assumption|].
  intros p Hp. inversion Hp.
Qed.

Lemma all_pairs_length ks :
  2 * length (all_pairs ks) = length ks * (length ks - 1).
Proof.
  induction ks as [|k ks IH]; simpl; [reflexivity|].
  rewrite length_app, length_map. nia.
Qed.

(** Lines 74-82 on their own: [k] embedded items give [k*(k-1)/2]
    entries, one per pair. *)
Lemma pairwise_count ie t :
  NoDup (dict_keys ie) -> pairwise ie = Ok t ->
  length t = length ie * (length ie - 1) / 2.
Proof.
  intros Hnd Ht. rewrite pairwise_spec in Ht by assumption. inversion Ht; subst.
  rewrite length_map.
  pose proof (all_pairs_length (dict_keys ie)) as H.
  unfold dict_keys in H at 2 3. rewrite length_map in H.
  rewrite <- H. rewrite Nat.mul_comm, Nat.div_mul by lia. reflexivity.
Qed.

Lemma entries_in_unit_interval ie l :
  Forall (fun v => in_unit_interval v = true) (dict_values (map (entry ie) l)).
Proof.
  induction l as [|p l IH]; simpl; constructor; [|exact IH].
  apply _compute_distance_in_unit_interval.
Qed.

(** ** Running the methods *)

Ltac run := cbv [bind ret lift get modify try_except].

Lemma _extract_text_from_pdf_eval env p s :
  _extract_text_from_pdf env p s = (Ok (extract_result env p s), log_pdf p s).
Proof.
  unfold _extract_text_from_pdf, call_PdfReader, extract_result. run.
  destruct (PdfReader env (pdf_calls s) p) as [pages|e]; [|reflexivity].
  destruct (extract_pages pages "") as [t|e]; reflexivity.
Qed.

Lemma _get_text_embedding_eval env t s :
  _get_text_embedding env t s
  = (Ok (embedding_result env t s), log_embedding (slice_to 8191 t) s).
Proof.
  unfold _get_text_embedding, call_embeddings_create, embedding_result, first. run.
  destruct (embeddings_create env (embedding_calls s) (slice_to 8191 t)) as [[|e l]|e];
    reflexivity.
Qed.

Lemma _get_document_embedding_eval env p s :
  _get_document_embedding env p s
  = (Ok (fst (document_embedding_result env p s)),
     snd (document_embedding_result env p s)).
Proof.
  unfold _get_document_embedding, document_embedding_result, try_except.
  unfold bind at 1. unfold get at 1.
  destruct (embeddings_cache s !! cache_key_of p) as [c|]; [reflexivity|].
  unfold bind at 1. rewrite _extract_text_from_pdf_eval. cbn [upload_folder log_pdf].
  destruct (truthy _); [|reflexivity]. cbn [negb].
  unfold bind at 1. rewrite _get_text_embedding_eval.
  destruct (embedding_result _ _ _); reflexivity.
Qed.

(** A cached document is answered without touching the state. *)
Lemma cache_hit env path s e :
  embeddings_cache s !! cache_key_of path = Some e ->
  _get_document_embedding env path s = (Ok (Some e), s).
Proof.
  intros H. rewrite _get_document_embedding_eval.
  unfold document_embedding_result. now rewrite H.
Qed.

Lemma embed_items_NoDup env items : forall acc s ie s',
  NoDup (dict_keys acc) ->
  embed_items env items acc s = (Ok ie, s') -> NoDup (dict_keys ie).
Proof.
  induction items as [|item items IH]; intros acc s ie s' Hacc; cbn [embed_items].
  - unfold ret. intros [= <- _]. assumption.
  - unfold bind at 1.
    destruct (resolve env item s) as [[[e|]|ex] s1]; [| |discriminate].
    + run. destruct (getitem item "id") as [id|]; [|discriminate].
      apply IH. now apply dict_set_NoDup.
    + run. destruct (getitem item "name"); [|discriminate]. now apply IH.
Qed.

(** [compute_distances] in one step: the table of all pairs of the
    embedded items, or the empty table when the first loop raised. *)
Lemma compute_distances_eval env items level s :
  compute_distances env items level s
  = match embed_items env items [] s with
    | (Ok ie, s') => (Ok (map (entry ie) (all_pairs (dict_keys ie))), s')
    | (Raise _, s') => (Ok [], s')
    end.
Proof.
  unfold compute_distances, compute_distances_body. run.
  destruct (embed_items env items [] s) as [[ie|e] s1] eqn:E; [|reflexivity].
  rewrite pairwise_spec; [reflexivity|].
  eapply embed_items_NoDup; [|exact E]. constructor.
Qed.

(** When the first loop completes, the table has one entry per pair of
    embedded items. *)
Lemma compute_distances_count env items level s ie s' :
  embed_items env items [] s = (Ok ie, s') ->
  exists t, compute_distances env items level s = (Ok t, s') /\
            dict_keys t = all_pairs (dict_keys ie) /\
            length t = length ie * (length ie - 1) / 2.
Proof.
  intros E. rewrite compute_distances_eval, E. eexists. split; [reflexivity|].
  split; [apply entry_keys|].
  apply pairwise_count.
  - eapply embed_items_NoDup; [|exact E]. constructor.
  - apply pairwise_spec. eapply embed_items_NoDup; [|exact E]. constructor.
Qed.

(** ** The distance engine *)

(** C2: [compute_distances] returns a table on every input and never
    raises; whenever its [try] block raises, the table returned is the
    empty one. *)
Theorem compute_distances_never_raises
    (env : Env) (items : list Item) (level_id : option string) (s : State) :
  match compute_distances_body env items s with
  | (Ok t, s') => compute_distances env items level_id s = (Ok t, s')
  | (Raise _, s') => compute_distances env items level_id s = (Ok [], s')
  end.
Proof.
  unfold compute_distances. run.
  destruct (compute_distances_body env items s) as [[t|e] s']; reflexivity.
Qed.

(** An item without a name makes the [try] block raise [KeyError]; the
    caller still receives an empty table. *)
Example nameless_item_gives_empty_table :
  fst (compute_distances_body demo_env [item_nameless; item_dog] demo_state)
  = Raise (KeyError "name") /\
  fst (compute_distances demo_env [item_nameless; item_dog] None demo_state) = Ok [].
Proof. vm_compute. split; reflexivity. Qed.

Example empty_list_gives_empty_table env level_id s :
  compute_distances env [] level_id s = (Ok [], s).
Proof. reflexivity. Qed.

(** An item whose embedding call fails is left out. *)
Example failed_item_is_excluded :
  fst (compute_distances demo_env [item_bad; item_dog; item_car] None demo_state)
  = Ok [(("b", "c"), PyInt 1)].
Proof. vm_compute. reflexivity. Qed.

(** C3: the distance of any two vectors lies in [[0, 1]], whatever the
    similarity computed, and so does every value of every table that
    [compute_distances] returns. *)
Theorem distances_in_unit_interval
    (env : Env) (items : list Item) (level_id : option string) (s : State) :
  (forall a b : np.ndarray, in_unit_interval (_compute_distance a b) = true) /\
  match compute_distances env items level_id s with
  | (Ok t, _) => Forall (fun v => in_unit_interval v = true) (dict_values t)
  | (Raise _, _) => False
  end.
Proof.
  split; [exact _compute_distance_in_unit_interval|].
  rewrite compute_distances_eval.
  destruct (embed_items env items [] s) as [[ie|e] s1].
  - apply entries_in_unit_interval.
  - constructor.
Qed.

(** *** The test [if not embedding] *)

(** A document embedding with two components or more makes the test
    raise: the truth value of such an array is ambiguous. *)
Lemma resolve_rejects_document_vector env (item : Item) p s e s1 :
  item !! "documentPath" = Some p -> truthy p = true ->
  _get_document_embedding env p s = (Ok (Some e), s1) ->
  2 <= length e ->
  resolve env item s = (Raise np.ambiguous_truth, s1).
Proof.
  intros Hp Ht He Hlen. unfold resolve, has_truthy, getitem. rewrite Hp, Ht.
  run. rewrite He. unfold not_embedding.
  destruct e as [|x [|y e]]; simpl in Hlen; try lia. reflexivity.
Qed.

(** The whole call then ends in the top-level handler. *)
Lemma document_vector_empties_table env (item : Item) rest level_id p s e s1 :
  item !! "documentPath" = Some p -> truthy p = true ->
  _get_document_embedding env p s = (Ok (Some e), s1) ->
  2 <= length e ->
  compute_distances env (item :: rest) level_id s = (Ok [], s1).
Proof.
  intros Hp Ht He Hlen. rewrite compute_distances_eval. cbn [embed_items].
  unfold bind at 1.
  now rewrite (resolve_rejects_document_vector env item p s e s1).
Qed.

(** A document embedding with the single component [0.0] is falsy: the
    name is embedded as well and replaces it. *)
Example zero_component_document_falls_back :
  fst (_get_document_embedding scalar_env "cat.pdf" demo_state) = Ok (Some [zero]) /\
  fst (resolve scalar_env item_doc demo_state) = Ok (Some [one]) /\
  length (embedding_calls (snd (resolve scalar_env item_doc demo_state))) = 2.
Proof. vm_compute. repeat split; reflexivity. Qed.

(** C1 does not hold of the code: the document of [item_doc] is read
    and embedded, yet [not embedding] raises [ValueError] on the
    two-component array; no embedding is returned for the item and the
    call ends with an empty table, without the pair of ["a"] and ["b"]. *)
Theorem document_embedding_aborts_distances :
  fst (_get_document_embedding demo_env "cat.pdf" demo_state) = Ok (Some unit_x) /\
  fst (resolve demo_env item_doc demo_state) = Raise np.ambiguous_truth /\
  fst (compute_distances demo_env [item_doc; item_dog] None demo_state) = Ok [] /\
  fst (compute_distances demo_env [item_cat; item_dog] None demo_state)
  = Ok [(("a", "b"), PyInt 1)].
Proof. vm_compute. repeat split; reflexivity. Qed.

(** C4 does not hold of the code, by the same test: the three items
    below all have an embedding, so three entries are due, and the
    table returned is empty.  Without the document path the three
    entries are there. *)
Theorem document_item_loses_pairs :
  fst (_get_document_embedding demo_env "cat.pdf" demo_state) = Ok (Some unit_x) /\
  fst (compute_distances demo_env [item_doc; item_dog; item_car] None demo_state)
  = Ok [] /\
  fst (compute_distances demo_env [item_cat; item_dog; item_car] None demo_state)
  = Ok [(("a", "b"), PyInt 1); (("a", "c"), PyInt 0); (("b", "c"), PyInt 1)].
Proof. vm_compute. repeat split; reflexivity. Qed.

(** ** The cache *)

Lemma document_embedding_cache env p s :
  dom (embeddings_cache (snd (document_embedding_result env p s)))
  ⊆ dom (embeddings_cache s) ∪ {[cache_key_of p]}.
Proof.
  unfold document_embedding_result.
  destruct (embeddings_cache s !! cache_key_of p); simpl; [set_solver|].
  destruct (truthy _); simpl; [|set_solver].
  destruct (embedding_result _ _ _); simpl; [|set_solver].
  rewrite dom_insert. set_solver.
Qed.

Lemma resolve_cache env (item : Item) s :
  dom (embeddings_cache (snd (resolve env item s)))
  ⊆ dom (embeddings_cache s) ∪ list_to_set (doc_keys [item]).
Proof.
  unfold resolve, has_truthy, doc_keys, getitem. simpl.
  destruct (item !! "documentPath") as [p|] eqn:Hp; simpl.
  - destruct (truthy p); run.
    + rewrite _get_document_embedding_eval.
      pose proof (document_embedding_cache env p s) as Hc.
      destruct (document_embedding_result env p s) as [r s1]. simpl in *.
      destruct (not_embedding env r) as [[]|e]; simpl; [|set_solver..].
      destruct (item !! "name"); simpl; [|set_solver].
      rewrite _get_text_embedding_eval. simpl. set_solver.
    + simpl. destruct (item !! "name"); simpl; [|set_solver].
      rewrite _get_text_embedding_eval. simpl. set_solver.
  - run. simpl. destruct (item !! "name"); simpl; [|set_solver].
    rewrite _get_text_embedding_eval. simpl. set_solver.
Qed.

Lemma doc_keys_cons (item : Item) items :
  (list_to_set (doc_keys (item :: items)) : gset string)
  = list_to_set (doc_keys [item]) ∪ list_to_set (doc_keys items).
Proof.
  unfold doc_keys. simpl.
  destruct (cache_key_of <$> item !! "documentPath"); simpl; set_solver.
Qed.

Lemma embed_items_cache env items : forall acc s,
  dom (embeddings_cache (snd (embed_items env items acc s)))
  ⊆ dom (embeddings_cache s) ∪ list_to_set (doc_keys items).
Proof.
  induction items as [|item items IH]; intros acc s.
  - simpl. set_solver.
  - rewrite doc_keys_cons. cbn [embed_items]. unfold bind at 1.
    pose proof (resolve_cache env item s) as Hr.
    destruct (resolve env item s) as [[[e|]|ex] s1]; simpl in Hr |- *.
    + unfold getitem. run. destruct (item !! "id") as [a|]; simpl.
      * specialize (IH (dict_set a e acc) s1). set_solver.
      * set_solver.
    + unfold getitem. run. destruct (item !! "name"); simpl.
      * specialize (IH acc s1). set_solver.
      * set_solver.
    + set_solver.
Qed.

(** C6: the table and the state that [compute_distances] returns do not
    depend on [level_id], and every cache key after the call was there
    before or is ["doc:" + documentPath] for an item of the call. *)
Theorem level_id_ignored
    (env : Env) (items : list Item) (level1 level2 : option string) (s : State) :
  compute_distances env items level1 s = compute_distances env items level2 s /\
  dom (embeddings_cache (snd (compute_distances env items level1 s)))
  ⊆ dom (embeddings_cache s) ∪ list_to_set (doc_keys items).
Proof.
  split; [reflexivity|].
  rewrite compute_distances_eval.
  pose proof (embed_items_cache env items [] s) as H.
  destruct (embed_items env items [] s) as [[ie|e] s1]; exact H.
Qed.

(** ** The lifetime of a processor *)

Lemma extends_refl s : extends s s.
Proof. split; reflexivity. Qed.

Lemma extends_trans s1 s2 s3 : extends s1 s2 -> extends s2 s3 -> extends s1 s3.
Proof. intros [] []. split; try congruence; etrans; eassumption. Qed.

Lemma extends_log_pdf p s : extends s (log_pdf p s).
Proof. split; simpl; try reflexivity. now apply prefix_app_r. Qed.

Lemma extends_log_embedding t s : extends s (log_embedding t s).
Proof. split; simpl; try reflexivity. now apply prefix_app_r. Qed.

Lemma extends_log_completion r s : extends s (log_completion r s).
Proof. split; simpl; try reflexivity. now apply prefix_app_r. Qed.

Lemma extends_set_cache k v s :
  embeddings_cache s !! k = None -> extends s (set_cache k v s).
Proof. intros H. split; simpl; try reflexivity. now apply insert_subseteq. Qed.

Create HintDb extends.
#[local] Hint Resolve extends_refl extends_log_pdf extends_log_embedding
  extends_log_completion extends_set_cache : extends.

Lemma extends_document_embedding env p s :
  extends s (snd (document_embedding_result env p s)).
Proof.
  unfold document_embedding_result.
  destruct (embeddings_cache s !! cache_key_of p) eqn:Hc; simpl; auto with extends.
  destruct (truthy _); simpl; auto with extends.
  destruct (embedding_result _ _ _); simpl.
  - eapply extends_trans; [apply extends_log_pdf|].
    eapply extends_trans; [apply extends_log_embedding|].
    apply extends_set_cache. exact Hc.
  - eapply extends_trans; [apply extends_log_pdf|]. apply extends_log_embedding.
Qed.

Lemma extends_resolve env (item : Item) s : extends s (snd (resolve env item s)).
Proof.
  assert (Htext : forall s1, extends s s1 ->
    extends s (snd ((text <- lift (getitem item "name") ;;
      _get_text_embedding env
        (if has_truthy item "description"
         then text +:+ ": " +:+ default "" (item !! "description") else text))%py s1))).
  { intros s1 H1. run. destruct (getitem item "name"); simpl; [|exact H1].
    rewrite _get_text_embedding_eval. simpl.
    eapply extends_trans; [exact H1|apply extends_log_embedding]. }
  unfold resolve.
  destruct (has_truthy item "documentPath").
  - unfold bind at 1. unfold bind at 1. unfold lift at 1.
    destruct (getitem item "documentPath") as [p|]; [|apply extends_refl].
    rewrite _get_document_embedding_eval.
    pose proof (extends_document_embedding env p s) as Hd.
    destruct (document_embedding_result env p s) as [r s1]. simpl in Hd |- *.
    unfold bind at 1. unfold lift at 1.
    destruct (not_embedding env r) as [[]|e]; simpl; auto.
  - unfold bind at 1. unfold ret at 1. unfold bind at 1. unfold lift at 1. simpl.
    apply Htext, extends_refl.
Qed.

Lemma extends_embed_items env items : forall acc s,
  extends s (snd (embed_items env items acc s)).
Proof.
  induction items as [|item items IH]; intros acc s; cbn [embed_items].
  - apply extends_refl.
  - unfold bind at 1. pose proof (extends_resolve env item s) as Hr.
    destruct (resolve env item s) as [[[e|]|ex] s1]; simpl in Hr |- *; [| |exact Hr].
    + run. destruct (getitem item "id"); simpl; [|exact Hr].
      eapply extends_trans; [exact Hr|apply IH].
    + run. destruct (getitem item "name"); simpl; [|exact Hr].
      eapply extends_trans; [exact Hr|apply IH].
Qed.

Lemma extends_compute_distances env items level_id s :
  extends s (snd (compute_distances env items level_id s)).
Proof.
  rewrite compute_distances_eval.
  pose proof (extends_embed_items env items [] s) as H.
  destruct (embed_items env items [] s) as [[ie|e] s1]; exact H.
Qed.

Lemma extends_complete env r s : extends s (snd (complete env r s)).
Proof.
  unfold complete, call_chat_completions_create. run.
  destruct (chat_completions_create _ _ _) as [[|c l]|e]; simpl; auto with extends.
Qed.

Lemma extends_get_document_summary env path s :
  extends s (snd (get_document_summary env path s)).
Proof.
  unfold get_document_summary. unfold try_except, bind at 1, get at 1.
  unfold bind at 1. rewrite _extract_text_from_pdf_eval.
  destruct (truthy _); simpl; auto with extends.
  match goal with |- context [complete env ?r ?s1] =>
    pose proof (extends_complete env r s1) as Hc;
    destruct (complete env r s1) as [[c|e] s2] end;
  simpl in *; (eapply extends_trans; [apply extends_log_pdf|exact Hc]).
Qed.

Lemma extends_process_document_query env path query s :
  extends s (snd (process_document_query env path query s)).
Proof.
  unfold process_document_query. unfold try_except, bind at 1, get at 1.
  destruct (from_option truthy false (openai_api_key s)); simpl; auto with extends.
  unfold bind at 1. rewrite _extract_text_from_pdf_eval.
  destruct (truthy _); simpl; auto with extends.
  match goal with |- context [complete env ?r ?s1] =>
    pose proof (extends_complete env r s1) as Hc;
    destruct (complete env r s1) as [[c|e] s2] end;
  simpl in *; (eapply extends_trans; [apply extends_log_pdf|exact Hc]).
Qed.

(** C5: the first request for a document path, when it succeeds, makes
    one call to the text extractor and one to the embedding provider and
    stores the embedding under ["doc:" + documentPath]; a second request
    for the same path, at any later state of the processor, returns the
    same embedding and leaves the state, hence both call logs, as they
    were. *)
Theorem document_embedding_cached_once
    (env : Env) (path : string) (s s1 s2 : State) (e : np.ndarray) :
  embeddings_cache s !! cache_key_of path = None ->
  _get_document_embedding env path s = (Ok (Some e), s1) ->
  extends s1 s2 ->
  pdf_calls s1 = pdf_calls s ++ [os_path.join (upload_folder s) path] /\
  (exists input, embedding_calls s1 = embedding_calls s ++ [input]) /\
  completion_calls s1 = completion_calls s /\
  embeddings_cache s1 !! cache_key_of path = Some e /\
  _get_document_embedding env path s2 = (Ok (Some e), s2).
Proof.
  intros Hmiss Hfirst Hlater. rewrite _get_document_embedding_eval in Hfirst.
  unfold document_embedding_result in Hfirst. rewrite Hmiss in Hfirst. cbv zeta in Hfirst.
  destruct (truthy _); [|discriminate].
  destruct (embedding_result _ _ _) as [e'|]; [|discriminate].
  simpl in Hfirst. injection Hfirst as -> <-.
  assert (Hin : embeddings_cache
                  (set_cache (cache_key_of path) e
                     (log_embedding
                        (slice_to 8191
                           (document_summary_text path
                              (extract_result env (os_path.join (upload_folder s) path) s)))
                        (log_pdf (os_path.join (upload_folder s) path) s)))
                !! cache_key_of path = Some e) by apply lookup_insert_eq.
  repeat split; try reflexivity; try exact Hin.
  - eexists. reflexivity.
  - apply cache_hit. eapply lookup_weaken; [exact Hin|]. apply Hlater.
Qed.

Lemma document_embedding_cached_once_witness :
  let s1 := snd (_get_document_embedding demo_env "cat.pdf" demo_state) in
  let s2 := snd (compute_distances demo_env [item_dog; item_car] None s1) in
  pdf_calls s1 = ["uploads/cat.pdf"] /\
  _get_document_embedding demo_env "cat.pdf" s2 = (Ok (Some unit_x), s2).
Proof.
  intros s1 s2.
  destruct (document_embedding_cached_once demo_env "cat.pdf" demo_state s1 s2 unit_x)
    as (Hpdf & _ & _ & _ & Hsecond).
  - reflexivity.
  - vm_compute. reflexivity.
  - apply extends_compute_distances.
  - split; [exact Hpdf | exact Hsecond].
Defined.

(** ** Summaries and queries *)

(** C9: when the extraction yields an empty text, the summary is the
    fixed message and the completion provider is not called. *)
Theorem summary_of_empty_extraction (env : Env) (path : string) (s : State) :
  fst (_extract_text_from_pdf env (os_path.join (upload_folder s) path) s) = Ok "" ->
  get_document_summary env path s
  = (Ok "Could not extract text from document",
     log_pdf (os_path.join (upload_folder s) path) s) /\
  completion_calls (snd (get_document_summary env path s)) = completion_calls s.
Proof.
  intros H. unfold get_document_summary. run.
  rewrite _extract_text_from_pdf_eval in H |- *. simpl in H. injection H as ->.
  simpl. split; reflexivity.
Qed.

Lemma summary_of_empty_extraction_witness :
  fst (_extract_text_from_pdf demo_env
         (os_path.join (upload_folder demo_state) "missing.pdf") demo_state) = Ok "" /\
  fst (get_document_summary demo_env "missing.pdf" demo_state)
  = Ok "Could not extract text from document" /\
  completion_calls (snd (get_document_summary demo_env "missing.pdf" demo_state)) = [].
Proof.
  assert (H : fst (_extract_text_from_pdf demo_env
                     (os_path.join (upload_folder demo_state) "missing.pdf") demo_state)
              = Ok "") by reflexivity.
  split; [exact H|].
  destruct (summary_of_empty_extraction demo_env "missing.pdf" demo_state H) as [Hr Hc].
  split; [now rewrite Hr | exact Hc].
Defined.

Lemma get_document_summary_extracts env path s :
  pdf_calls (snd (get_document_summary env path s))
  = pdf_calls s ++ [os_path.join (upload_folder s) path].
Proof.
  unfold get_document_summary, complete, call_chat_completions_create. run.
  rewrite _extract_text_from_pdf_eval.
  destruct (truthy _); simpl; [|auto].
  destruct (chat_completions_create _ _ _) as [[|c l]|e]; simpl; auto.
Qed.

Lemma process_document_query_guard env path query s :
  from_option truthy false (openai_api_key s) = false ->
  process_document_query env path query s = (Ok "OpenAI API key not configured", s).
Proof. intros H. unfold process_document_query. run. now rewrite H. Qed.

Lemma __init___key env folder getenv s :
  __init__ env folder getenv = Ok s -> openai_api_key s = getenv.
Proof.
  unfold __init__. destruct (OpenAI_new env getenv); [|discriminate].
  now intros [= <-].
Qed.

(** With a constructor that refuses a missing key, no processor is
    built when the variable is absent. *)
Lemma __init___refuses_missing_key env folder e :
  OpenAI_new env None = Raise e -> __init__ env folder None = Raise e.
Proof. intros H. unfold __init__. now rewrite H. Qed.

(** The guard of [process_document_query], at any later state of a
    processor constructed with a key that is absent or empty. *)
Lemma query_with_unusable_key env folder getenv s0 s :
  __init__ env folder getenv = Ok s0 ->
  from_option truthy false getenv = false ->
  extends s0 s ->
  forall path query,
    process_document_query env path query s
    = (Ok "OpenAI API key not configured", s).
Proof.
  intros Hinit Hkey Hlater path query. apply process_document_query_guard.
  now rewrite (ext_key _ _ Hlater), (__init___key _ _ _ _ Hinit).
Qed.

(** C10 does not hold of the code: with [OPENAI_API_KEY] absent the
    constructor logs its warning and then calls [OpenAI(api_key=None)]
    (line 35), which raises, so there is no processor to answer a
    query.  The guard of [process_document_query] (lines 135-136) is
    reached with an empty key only: then the fixed message is returned
    and the state is left as it was, and [get_document_summary], which
    has no guard, opens the document. *)
Theorem absent_api_key_aborts_construction :
  __init__ demo_env "uploads" None = Raise missing_api_key /\
  __init__ demo_env "uploads" (Some "") = Ok empty_key_state /\
  process_document_query demo_env "cat.pdf" "What is a tile?" empty_key_state
  = (Ok "OpenAI API key not configured", empty_key_state) /\
  pdf_calls (snd (get_document_summary demo_env "cat.pdf" empty_key_state))
  = ["uploads/cat.pdf"].
Proof. vm_compute. repeat split; reflexivity. Qed.

(** * Further properties *)

(** ** Strings *)

Lemma append_assoc (a b c : string) : (a +:+ b) +:+ c = a +:+ (b +:+ c).
Proof.
  induction a as [|x a IH]; [reflexivity|].
  change (String x ((a +:+ b) +:+ c) = String x (a +:+ (b +:+ c))). now rewrite IH.
Qed.

Lemma append_nil_r (a : string) : a +:+ "" = a.
Proof.
  induction a as [|x a IH]; [reflexivity|].
  change (String x (a +:+ "") = String x a). now rewrite IH.
Qed.

Lemma length_substring_0 n s : String.length (substring 0 n s) <= n.
Proof.
  revert s. induction n as [|n IH]; intros [|c s]; simpl; try lia.
  specialize (IH s). lia.
Qed.

Lemma length_slice_to n s : String.length (slice_to n s) <= N.to_nat n.
Proof. apply length_substring_0. Qed.


(** ** Text extraction *)

Lemma extract_pages_ok texts : forall acc,
  extract_pages (map Ok texts) acc = Ok (acc +:+ join_pages texts).
Proof.
  induction texts as [|t texts IH]; intros acc; simpl.
  - now rewrite append_nil_r.
  - rewrite IH. f_equal. now rewrite !append_assoc.
Qed.

Lemma extract_pages_raise pages : forall acc,
  (exists e, In (Raise e) pages) -> exists e, extract_pages pages acc = Raise e.
Proof.
  induction pages as [|[t|e'] pages IH]; intros acc [e He]; simpl in *.
  - contradiction.
  - destruct He as [He|He]; [discriminate|]. apply IH. eauto.
  - eauto.
Qed.


(** X1: when the document opens and every page yields its text, the
    text extracted is the page texts in order, each followed by a
    newline, and the reader was called once. *)
Theorem extract_text_joins_pages
    (env : Env) (pdf_path : string) (s : State) (texts : list string) :
  PdfReader env (pdf_calls s) pdf_path = Ok (map Ok texts) ->
  _extract_text_from_pdf env pdf_path s = (Ok (join_pages texts), log_pdf pdf_path s).
Proof.
  intros H. rewrite _extract_text_from_pdf_eval. unfold extract_result.
  rewrite H, extract_pages_ok. reflexivity.
Qed.

Lemma extract_text_joins_pages_witness :
  PdfReader demo_env (pdf_calls demo_state) "uploads/cat.pdf" = Ok (map Ok ["Tiles"]) /\
  _extract_text_from_pdf demo_env "uploads/cat.pdf" demo_state
  = (Ok ("Tiles" +:+ newline), log_pdf "uploads/cat.pdf" demo_state).
Proof.
  split; [reflexivity|].
  apply (extract_text_joins_pages demo_env "uploads/cat.pdf" demo_state ["Tiles"]).
  reflexivity.
Defined.

(** X2: extraction is all or nothing: when the document cannot be
    opened, or any one page fails, the result is the empty string (the
    text of the pages read before the failure is dropped) and nothing
    is raised. *)
Theorem extract_text_all_or_nothing (env : Env) (pdf_path : string) (s : State) :
  (exists e, PdfReader env (pdf_calls s) pdf_path = Raise e) \/
  (exists pages e, PdfReader env (pdf_calls s) pdf_path = Ok pages /\ In (Raise e) pages) ->
  _extract_text_from_pdf env pdf_path s = (Ok "", log_pdf pdf_path s).
Proof.
  intros H. rewrite _extract_text_from_pdf_eval. unfold extract_result.
  destruct H as [[e ->] | (pages & e & -> & Hin)]; [reflexivity|].
  destruct (extract_pages_raise pages "" (ex_intro _ e Hin)) as [e' ->]. reflexivity.
Qed.

Lemma extract_text_all_or_nothing_witness :
  _extract_text_from_pdf faulty_env "uploads/torn.pdf" demo_state
  = (Ok "", log_pdf "uploads/torn.pdf" demo_state).
Proof.
  apply (extract_text_all_or_nothing faulty_env "uploads/torn.pdf" demo_state).
  right. exists [Ok "Tiles"; Raise (OtherError "Unreadable page")], (OtherError "Unreadable page").
  split; [reflexivity|]. right. left. reflexivity.
Defined.

(** ** Summaries and queries, step by step *)

Lemma complete_eval env r s :
  complete env r s
  = (match chat_completions_create env (completion_calls s) r with
     | Ok choices => first choices
     | Raise e => Raise e
     end, log_completion r s).
Proof.
  unfold complete, call_chat_completions_create. run.
  destruct (chat_completions_create _ _ _) as [[|c l]|e]; reflexivity.
Qed.

Lemma get_document_summary_eval env path s :
  get_document_summary env path s
  = let full := os_path.join (upload_folder s) path in
    let text := extract_result env full s in
    let s1 := log_pdf full s in
    if truthy text then
      (Ok (match chat_completions_create env (completion_calls s) (summary_request text) with
           | Ok (c :: _) => c
           | Ok [] => "Error summarizing document: list index out of range"
           | Raise e => "Error summarizing document: " +:+ str_exn e
           end), log_completion (summary_request text) s1)
    else (Ok "Could not extract text from document", s1).
Proof.
  unfold get_document_summary. unfold try_except, bind at 1, get at 1.
  unfold bind at 1. rewrite _extract_text_from_pdf_eval. cbv zeta.
  destruct (truthy _); [|reflexivity]. cbn [negb]. rewrite complete_eval. simpl.
  destruct (chat_completions_create _ _ _) as [[|c l]|e]; reflexivity.
Qed.

Lemma process_document_query_eval env path query s :
  from_option truthy false (openai_api_key s) = true ->
  process_document_query env path query s
  = let full := os_path.join (upload_folder s) path in
    let text := extract_result env full s in
    let s1 := log_pdf full s in
    if truthy text then
      (Ok (match chat_completions_create env (completion_calls s)
                   (query_request text query) with
           | Ok (c :: _) => c
           | Ok [] => "Error processing query: list index out of range"
           | Raise e => "Error processing query: " +:+ str_exn e
           end), log_completion (query_request text query) s1)
    else (Ok "Could not extract text from document", s1).
Proof.
  intros Hk. unfold process_document_query. unfold try_except, bind at 1, get at 1.
  rewrite Hk. cbn [negb].
  unfold bind at 1. rewrite _extract_text_from_pdf_eval. cbv zeta.
  destruct (truthy _); [|reflexivity]. cbn [negb]. rewrite complete_eval. simpl.
  destruct (chat_completions_create _ _ _) as [[|c l]|e]; reflexivity.
Qed.



(** X4: with a non-empty text and a completion that has a choice,
    [get_document_summary] returns the content of the first choice as
    it is, after one extraction and one completion request built from
    the text. *)
Theorem summary_returns_first_choice
    (env : Env) (path : string) (s : State) (text c : string) (rest : list string) :
  fst (_extract_text_from_pdf env (os_path.join (upload_folder s) path) s) = Ok text ->
  truthy text = true ->
  chat_completions_create env (completion_calls s) (summary_request text) = Ok (c :: rest) ->
  get_document_summary env path s
  = (Ok c, log_completion (summary_request text)
             (log_pdf (os_path.join (upload_folder s) path) s)).
Proof.
  intros Ht Htr Hc. rewrite _extract_text_from_pdf_eval in Ht. simpl in Ht.
  injection Ht as Ht. rewrite get_document_summary_eval. cbv zeta.
  rewrite Ht, Htr, Hc. reflexivity.
Qed.

Lemma summary_returns_first_choice_witness :
  fst (get_document_summary demo_env "cat.pdf" demo_state) = Ok "A summary.".
Proof.
  rewrite (summary_returns_first_choice demo_env "cat.pdf" demo_state
             ("Tiles" +:+ newline) "A summary." []); reflexivity.
Defined.

(** X5: when the completion provider fails, or answers without any
    choice, [get_document_summary] does not raise: it returns
    ["Error summarizing document: "] followed by the message of the
    exception. *)
Theorem summary_reports_provider_failure
    (env : Env) (path : string) (s : State) (text : string) (e : exn) :
  fst (_extract_text_from_pdf env (os_path.join (upload_folder s) path) s) = Ok text ->
  truthy text = true ->
  chat_completions_create env (completion_calls s) (summary_request text) = Raise e \/
  (chat_completions_create env (completion_calls s) (summary_request text) = Ok []
   /\ e = IndexError "list index out of range") ->
  get_document_summary env path s
  = (Ok ("Error summarizing document: " +:+ str_exn e),
     log_completion (summary_request text)
       (log_pdf (os_path.join (upload_folder s) path) s)).
Proof.
  intros Ht Htr Hc. rewrite _extract_text_from_pdf_eval in Ht. simpl in Ht.
  injection Ht as Ht. rewrite get_document_summary_eval. cbv zeta.
  rewrite Ht, Htr. destruct Hc as [-> | [-> ->]]; reflexivity.
Qed.

Lemma summary_reports_provider_failure_witness :
  fst (get_document_summary faulty_env "cat.pdf" demo_state)
  = Ok "Error summarizing document: Request timed out".
Proof.
  rewrite (summary_reports_provider_failure faulty_env "cat.pdf" demo_state
             ("Tiles" +:+ newline) (OtherError "Request timed out"));
    [reflexivity | reflexivity | reflexivity | left; reflexivity].
Defined.

(** X6: with an API key, a query about a document whose extraction is
    empty is answered with the fixed message after the one extraction,
    without any completion request. *)
Theorem query_of_empty_extraction (env : Env) (path query : string) (s : State) :
  from_option truthy false (openai_api_key s) = true ->
  fst (_extract_text_from_pdf env (os_path.join (upload_folder s) path) s) = Ok "" ->
  process_document_query env path query s
  = (Ok "Could not extract text from document",
     log_pdf (os_path.join (upload_folder s) path) s).
Proof.
  intros Hk Ht. rewrite _extract_text_from_pdf_eval in Ht. simpl in Ht.
  injection Ht as Ht. rewrite process_document_query_eval by assumption. cbv zeta.
  rewrite Ht. reflexivity.
Qed.

Lemma query_of_empty_extraction_witness :
  process_document_query demo_env "missing.pdf" "What is a tile?" demo_state
  = (Ok "Could not extract text from document", log_pdf "uploads/missing.pdf" demo_state).
Proof.
  apply (query_of_empty_extraction demo_env "missing.pdf" "What is a tile?" demo_state);
    reflexivity.
Defined.

(** X7: with an API key and a non-empty text, [process_document_query]
    makes one completion request, built from the text and the query,
    and returns the first choice, or ["Error processing query: "] and
    the message when the provider fails or gives no choice. *)
Theorem query_answer_or_error (env : Env) (path query : string) (s : State) (text : string) :
  from_option truthy false (openai_api_key s) = true ->
  fst (_extract_text_from_pdf env (os_path.join (upload_folder s) path) s) = Ok text ->
  truthy text = true ->
  process_document_query env path query s
  = (Ok (match chat_completions_create env (completion_calls s)
                 (query_request text query) with
         | Ok (c :: _) => c
         | Ok [] => "Error processing query: list index out of range"
         | Raise e => "Error processing query: " +:+ str_exn e
         end),
     log_completion (query_request text query)
       (log_pdf (os_path.join (upload_folder s) path) s)).
Proof.
  intros Hk Ht Htr. rewrite _extract_text_from_pdf_eval in Ht. simpl in Ht.
  injection Ht as Ht. rewrite process_document_query_eval by assumption. cbv zeta.
  rewrite Ht, Htr. reflexivity.
Qed.

Lemma query_answer_or_error_witness :
  fst (process_document_query demo_env "cat.pdf" "What is a tile?" demo_state)
  = Ok "A summary." /\
  fst (process_document_query faulty_env "cat.pdf" "What is a tile?" demo_state)
  = Ok "Error processing query: Request timed out".
Proof.
  split.
  - rewrite (query_answer_or_error demo_env "cat.pdf" "What is a tile?" demo_state
               ("Tiles" +:+ newline)); reflexivity.
  - rewrite (query_answer_or_error faulty_env "cat.pdf" "What is a tile?" demo_state
               ("Tiles" +:+ newline)); reflexivity.
Defined.

(** X8: a document path that starts with ["/"] is opened as it is:
    [os.path.join] drops the upload folder, in the summary, in the
    query (when the key guard passes) and in the document embedding
    (on a cache miss). *)
Theorem absolute_path_bypasses_upload_folder (env : Env) (path query : string) (s : State) :
  startswith_sep path = true ->
  pdf_calls (snd (get_document_summary env path s)) = pdf_calls s ++ [path] /\
  pdf_calls (snd (process_document_query env path query s))
  = (if from_option truthy false (openai_api_key s)
     then pdf_calls s ++ [path] else pdf_calls s) /\
  pdf_calls (snd (_get_document_embedding env path s))
  = match embeddings_cache s !! cache_key_of path with
    | Some _ => pdf_calls s
    | None => pdf_calls s ++ [path]
    end.
Proof.
  intros Hp.
  assert (Hj : os_path.join (upload_folder s) path = path)
    by (unfold os_path.join; now rewrite Hp).
  split; [|split].
  - rewrite get_document_summary_eval, Hj. cbv zeta. destruct (truthy _); reflexivity.
  - destruct (from_option truthy false (openai_api_key s)) eqn:Hk.
    + rewrite process_document_query_eval, Hj by assumption. cbv zeta.
      destruct (truthy _); reflexivity.
    + now rewrite process_document_query_guard.
  - rewrite _get_document_embedding_eval. unfold document_embedding_result.
    destruct (embeddings_cache s !! cache_key_of path); [reflexivity|].
    rewrite Hj. cbv zeta. destruct (truthy _); [|reflexivity].
    destruct (embedding_result _ _ _); reflexivity.
Qed.

Lemma absolute_path_bypasses_upload_folder_witness :
  startswith_sep "/etc/passwd" = true /\
  pdf_calls (snd (get_document_summary demo_env "/etc/passwd" demo_state))
  = ["/etc/passwd"].
Proof.
  split; [reflexivity|].
  apply (absolute_path_bypasses_upload_folder demo_env "/etc/passwd" "" demo_state).
  reflexivity.
Defined.

(** X9: each public operation leaves the upload folder and the API key
    as they were, keeps every cache entry, and only appends to the
    three call logs. *)
Theorem public_operations_extend_state (env : Env) (s : State) :
  (forall items level_id, extends s (snd (compute_distances env items level_id s))) /\
  (forall path, extends s (snd (get_document_summary env path s))) /\
  (forall path query, extends s (snd (process_document_query env path query s))).
Proof.
  split; [|split]; intros.
  - apply extends_compute_distances.
  - apply extends_get_document_summary.
  - apply extends_process_document_query.
Qed.

(** ** The cache and the resolver *)

(** X10: [_get_document_embedding] never raises; an embedding it
    returns is the one the cache holds for the path afterwards, and
    when it returns [None] the cache is as it was (failures are not
    cached). *)
Theorem document_embedding_result_is_cached
    (env : Env) (document_path : string) (s : State) :
  match _get_document_embedding env document_path s with
  | (Ok (Some e), s1) => embeddings_cache s1 !! cache_key_of document_path = Some e
  | (Ok None, s1) => embeddings_cache s1 = embeddings_cache s
  | (Raise _, _) => False
  end.
Proof.
  rewrite _get_document_embedding_eval. unfold document_embedding_result.
  destruct (embeddings_cache s !! cache_key_of document_path) eqn:Hc; [exact Hc|].
  cbv zeta. destruct (truthy _); [|reflexivity].
  destruct (embedding_result _ _ _); [|reflexivity].
  simpl. apply lookup_insert_eq.
Qed.

(** X11: a request for one document path leaves the cache entries of
    every other key as they were. *)
Theorem document_request_touches_one_key
    (env : Env) (document_path : string) (s : State) (k : string) :
  k <> cache_key_of document_path ->
  embeddings_cache (snd (_get_document_embedding env document_path s)) !! k
  = embeddings_cache s !! k.
Proof.
  intros Hk. rewrite _get_document_embedding_eval. unfold document_embedding_result.
  destruct (embeddings_cache s !! cache_key_of document_path) eqn:Hc; [reflexivity|].
  cbv zeta. destruct (truthy _); [|reflexivity].
  destruct (embedding_result _ _ _); [|reflexivity].
  simpl. apply lookup_insert_ne. congruence.
Qed.

Lemma document_request_touches_one_key_witness :
  embeddings_cache (snd (_get_document_embedding demo_env "cat.pdf" demo_state))
    !! "doc:dog.pdf" = None.
Proof.
  rewrite (document_request_touches_one_key demo_env "cat.pdf" demo_state "doc:dog.pdf").
  - reflexivity.
  - discriminate.
Defined.

Lemma resolve_plain env (item : Item) n s :
  has_truthy item "documentPath" = false -> item !! "name" = Some n ->
  resolve env item s = _get_text_embedding env (item_text item) s.
Proof.
  intros Hd Hn. unfold resolve, item_text, getitem. rewrite Hd, Hn. reflexivity.
Qed.

(** X12: when an item has a document path but the document embedding
    comes back [None] (no text, or the provider failed), the item is
    embedded from its name and description instead, by one more
    provider call; the cache is not written. *)
Theorem resolve_falls_back_to_name
    (env : Env) (item : Item) (p n : string) (s s1 : State) :
  item !! "documentPath" = Some p -> truthy p = true ->
  item !! "name" = Some n ->
  _get_document_embedding env p s = (Ok None, s1) ->
  resolve env item s
  = (Ok (embedding_result env (item_text item) s1),
     log_embedding (slice_to 8191 (item_text item)) s1) /\
  embeddings_cache s1 = embeddings_cache s.
Proof.
  intros Hp Ht Hn Hd. split.
  - unfold resolve, item_text, has_truthy at 1, getitem.
    rewrite Hp, Ht, Hn. run. rewrite Hd. simpl. apply _get_text_embedding_eval.
  - pose proof (document_embedding_result_is_cached env p s) as H.
    now rewrite Hd in H.
Qed.

Lemma resolve_falls_back_to_name_witness :
  fst (resolve demo_env item_lost demo_state) = Ok (Some unit_x) /\
  embedding_calls (snd (resolve demo_env item_lost demo_state)) = ["Cat"].
Proof.
  destruct (resolve_falls_back_to_name demo_env item_lost "missing.pdf" "Cat" demo_state
              (log_pdf "uploads/missing.pdf" demo_state)) as [Hr _];
    try reflexivity.
  rewrite Hr. split; reflexivity.
Defined.

(** X13: a document embedding with exactly one component passes the
    test [if not embedding] by the value of that component: when it is
    not zero the document embedding is the item's embedding and no
    further call is made; when it is zero the name is embedded and
    takes its place. *)
Theorem single_component_document_embedding
    (env : Env) (item : Item) (p n : string) (x : float) (s s1 : State) :
  item !! "documentPath" = Some p -> truthy p = true ->
  item !! "name" = Some n ->
  _get_document_embedding env p s = (Ok (Some [x]), s1) ->
  resolve env item s
  = if is_zero x then _get_text_embedding env (item_text item) s1
    else (Ok (Some [x]), s1).
Proof.
  intros Hp Ht Hn Hd. unfold resolve, item_text, has_truthy at 1, getitem.
  rewrite Hp, Ht, Hn. run. rewrite Hd. simpl. destruct (is_zero x); reflexivity.
Qed.

Lemma single_component_document_embedding_witness :
  fst (resolve scalar_env item_doc demo_state) = Ok (Some [one]).
Proof.
  rewrite (single_component_document_embedding scalar_env item_doc "cat.pdf" "Cat" zero
             demo_state (snd (_get_document_embedding scalar_env "cat.pdf" demo_state)));
    reflexivity.
Defined.

(** X14: when the first item of the list has a document embedding of
    two or more components, the call ends in the handler with the
    embedding in the cache, and the same call made again, at the state
    the first one left, ends in the handler again, this time without
    any external call: the state does not change. *)
Theorem document_vector_failure_repeats
    (env : Env) (item : Item) (rest : list Item) (level1 level2 : option string)
    (p : string) (s s1 : State) (e : np.ndarray) :
  item !! "documentPath" = Some p -> truthy p = true ->
  _get_document_embedding env p s = (Ok (Some e), s1) ->
  2 <= length e ->
  compute_distances env (item :: rest) level1 s = (Ok [], s1) /\
  compute_distances env (item :: rest) level2 s1 = (Ok [], s1).
Proof.
  intros Hp Ht Hd Hlen. split.
  - now apply (document_vector_empties_table env item rest level1 p s e s1).
  - apply (document_vector_empties_table env item rest level2 p s1 e s1); try assumption.
    apply cache_hit.
    pose proof (document_embedding_result_is_cached env p s) as H.
    now rewrite Hd in H.
Qed.

Lemma document_vector_failure_repeats_witness :
  let s1 := snd (_get_document_embedding demo_env "cat.pdf" demo_state) in
  compute_distances demo_env [item_doc; item_dog] None demo_state = (Ok [], s1) /\
  compute_distances demo_env [item_doc; item_dog] None s1 = (Ok [], s1).
Proof.
  intros s1.
  apply (document_vector_failure_repeats demo_env item_doc [item_dog] None None
           "cat.pdf" demo_state s1 unit_x).
  - reflexivity.
  - reflexivity.
  - vm_compute. reflexivity.
  - simpl. lia.
Defined.

(** ** Items without documents *)

Lemma plain_spec (item : Item) :
  plain item = true ->
  has_truthy item "documentPath" = false /\
  (exists n, item !! "name" = Some n) /\ (exists i, item !! "id" = Some i).
Proof.
  unfold plain. intros H. apply andb_true_iff in H as [H Hid].
  apply andb_true_iff in H as [Hdoc Hname].
  apply negb_true_iff in Hdoc. apply bool_decide_eq_true in Hname, Hid.
  destruct Hname, Hid. eauto.
Qed.

Lemma embed_items_plain_step env (item : Item) items acc s :
  plain item = true ->
  embed_items env (item :: items) acc s
  = embed_items env items
      (match embedding_result env (item_text item) s with
       | Some e => dict_set (default "" (item !! "id")) e acc
       | None => acc
       end)
      (log_embedding (slice_to 8191 (item_text item)) s).
Proof.
  intros Hp. destruct (plain_spec item Hp) as (Hd & [n Hn] & [i Hi]).
  cbn [embed_items]. unfold bind at 1.
  rewrite (resolve_plain env item n s Hd Hn), _get_text_embedding_eval.
  unfold getitem. rewrite Hn, Hi.
  destruct (embedding_result env (item_text item) s); reflexivity.
Qed.

Lemma embed_items_plain env items : forall acc s,
  forallb plain items = true ->
  embedding_calls (snd (embed_items env items acc s))
  = embedding_calls s ++ map (fun it => slice_to 8191 (item_text it)) items /\
  pdf_calls (snd (embed_items env items acc s)) = pdf_calls s /\
  embeddings_cache (snd (embed_items env items acc s)) = embeddings_cache s /\
  completion_calls (snd (embed_items env items acc s)) = completion_calls s.
Proof.
  induction items as [|item items IH]; intros acc s Hall.
  - simpl. rewrite app_nil_r. repeat split; eauto.
  - simpl in Hall. apply andb_true_iff in Hall as [Hp Hall].
    rewrite (embed_items_plain_step env item items acc s Hp).
    match goal with |- context [embed_items env items ?a ?s1] =>
      destruct (IH a s1 Hall) as (H1 & H2 & H3 & H4) end.
    rewrite H1, H2, H3, H4. simpl. rewrite <- app_assoc. repeat split; auto.
Qed.

(** X15: for items that have an id and a name and no document path,
    [compute_distances] makes one embedding call per item, in the order
    of the items, with the first 8191 characters of the name (and
    [": "] and the description when there is one); it opens no
    document, requests no completion and leaves the cache as it was. *)
Theorem plain_items_one_call_each
    (env : Env) (items : list Item) (level_id : option string) (s : State) :
  forallb plain items = true ->
  embedding_calls (snd (compute_distances env items level_id s))
  = embedding_calls s ++ map (fun it => slice_to 8191 (item_text it)) items /\
  pdf_calls (snd (compute_distances env items level_id s)) = pdf_calls s /\
  embeddings_cache (snd (compute_distances env items level_id s)) = embeddings_cache s /\
  completion_calls (snd (compute_distances env items level_id s)) = completion_calls s.
Proof.
  intros H. rewrite compute_distances_eval.
  destruct (embed_items_plain env items [] s H) as (H1 & H2 & H3 & H4).
  destruct (embed_items env items [] s) as [[ie|e] s']; simpl in *; auto.
Qed.

Lemma plain_items_one_call_each_witness :
  forallb plain [item_bad; item_dog; item_car] = true /\
  embedding_calls
    (snd (compute_distances demo_env [item_bad; item_dog; item_car] None demo_state))
  = ["Bad"; "Dog"; "Car"].
Proof.
  split; [reflexivity|].
  apply (plain_items_one_call_each demo_env [item_bad; item_dog; item_car] None demo_state).
  reflexivity.
Defined.

Lemma embedding_result_total env t s :
  (forall log input, exists e l, embeddings_create env log input = Ok (e :: l)) ->
  exists e, embedding_result env t s = Some e.
Proof.
  intros H. unfold embedding_result.
  destruct (H (embedding_calls s) (slice_to 8191 t)) as (e & l & ->). eauto.
Qed.

Lemma embed_items_all env items : forall acc s,
  (forall log input, exists e l, embeddings_create env log input = Ok (e :: l)) ->
  forallb plain items = true ->
  NoDup (dict_keys acc ++ item_ids items) ->
  exists ie, fst (embed_items env items acc s) = Ok ie /\
             dict_keys ie = dict_keys acc ++ item_ids items.
Proof.
  induction items as [|item items IH]; intros acc s Htot Hall Hnd.
  - simpl. exists acc. now rewrite app_nil_r.
  - simpl in Hall. apply andb_true_iff in Hall as [Hp Hall].
    rewrite (embed_items_plain_step env item items acc s Hp).
    destruct (embedding_result_total env (item_text item) s Htot) as [e ->].
    simpl in Hnd. rewrite cons_middle, app_assoc in Hnd.
    assert (Hfresh : default "" (item !! "id") ∉ dict_keys acc).
    { apply NoDup_app in Hnd as (Hnd & _ & _). apply NoDup_app in Hnd as (_ & Hd & _).
      intros Hin. apply (Hd _ Hin). left. }
    assert (Hk : dict_keys (dict_set (default "" (item !! "id")) e acc)
                 = dict_keys acc ++ [default "" (item !! "id")]).
    { rewrite dict_keys_set. now destruct (decide _). }
    destruct (IH (dict_set (default "" (item !! "id")) e acc)
                (log_embedding (slice_to 8191 (item_text item)) s) Htot Hall)
      as (ie & Hie & Hkeys).
    + now rewrite Hk.
    + exists ie. split; [exact Hie|]. rewrite Hkeys, Hk. simpl.
      now rewrite <- app_assoc.
Qed.

(** X16: when the provider answers every request with an embedding,
    [n] items with pairwise distinct ids, each with a name and without
    a document path, give a table of exactly [n*(n-1)/2] entries, whose
    keys are the pairs of ids in the order of the items. *)
Theorem all_embedded_table_is_complete
    (env : Env) (items : list Item) (level_id : option string) (s : State) :
  (forall log input, exists e l, embeddings_create env log input = Ok (e :: l)) ->
  forallb plain items = true ->
  NoDup (item_ids items) ->
  exists t, fst (compute_distances env items level_id s) = Ok t /\
            dict_keys t = all_pairs (item_ids items) /\
            length t = length items * (length items - 1) / 2.
Proof.
  intros Htot Hall Hnd.
  destruct (embed_items_all env items [] s Htot Hall Hnd) as (ie & Hie & Hkeys).
  simpl in Hkeys.
  destruct (embed_items env items [] s) as [r s'] eqn:E. simpl in Hie. subst r.
  destruct (compute_distances_count env items level_id s ie s' E) as (t & Ht & Hk & Hlen).
  exists t. rewrite Ht. split; [reflexivity|]. split; [now rewrite Hk, Hkeys|].
  rewrite Hlen.
  assert (Hl : length ie = length items).
  { transitivity (length (dict_keys ie)); [unfold dict_keys; now rewrite length_map|].
    rewrite Hkeys. unfold item_ids. now rewrite length_map. }
  now rewrite Hl.
Qed.

Lemma all_embedded_table_is_complete_witness :
  exists t,
    fst (compute_distances scalar_env [item_cat; item_dog; item_car] None demo_state) = Ok t /\
    dict_keys t = [("a", "b"); ("a", "c"); ("b", "c")] /\
    length t = 3.
Proof.
  apply (all_embedded_table_is_complete scalar_env [item_cat; item_dog; item_car]
           None demo_state).
  - intros log input. eexists. exists []. reflexivity.
  - reflexivity.
  - apply (bool_decide_unpack _). vm_compute. exact I.
Defined.

(** ** What a call may cost *)

Lemma costs_refl s : costs 0 0 s s.
Proof.
  split; [exists []|exists []|reflexivity]; rewrite app_nil_r; repeat split; auto.
Qed.

Lemma costs_weaken n m n' m' s s' :
  n <= n' -> m <= m' -> costs n m s s' -> costs n' m' s s'.
Proof.
  intros Hn Hm [(l1 & H1 & L1) (l2 & H2 & L2 & F2) H3].
  split; [exists l1|exists l2|assumption]; repeat split; auto; lia.
Qed.

Lemma costs_trans n1 m1 n2 m2 s1 s2 s3 :
  costs n1 m1 s1 s2 -> costs n2 m2 s2 s3 -> costs (n1 + n2) (m1 + m2) s1 s3.
Proof.
  intros [(l1 & H1 & L1) (l2 & H2 & L2 & F2) H3] [(k1 & G1 & K1) (k2 & G2 & K2 & E2) G3].
  split.
  - exists (l1 ++ k1). rewrite G1, H1, <- app_assoc, length_app. split; [reflexivity|lia].
  - exists (l2 ++ k2). rewrite G2, H2, <- app_assoc, length_app.
    repeat split; [lia|]. apply Forall_app. auto.
  - congruence.
Qed.

Lemma costs_log_pdf p s : costs 1 0 s (log_pdf p s).
Proof.
  split; [exists [p]|exists []|reflexivity]; simpl; rewrite ?app_nil_r; repeat split; auto.
Qed.

Lemma costs_log_embedding t s : costs 0 1 s (log_embedding (slice_to 8191 t) s).
Proof.
  split; [exists []|exists [slice_to 8191 t]|reflexivity]; simpl; rewrite ?app_nil_r;
    repeat split; auto.
  constructor; [apply length_slice_to|constructor].
Qed.

Lemma costs_set_cache k v s : costs 0 0 s (set_cache k v s).
Proof.
  split; [exists []|exists []|reflexivity]; simpl; rewrite app_nil_r; repeat split; auto.
Qed.

Lemma costs_document_embedding env p s :
  costs 1 1 s (snd (document_embedding_result env p s)).
Proof.
  unfold document_embedding_result.
  destruct (embeddings_cache s !! cache_key_of p).
  { apply (costs_weaken 0 0); [lia..|apply costs_refl]. }
  cbv zeta. destruct (truthy _).
  2:{ apply (costs_weaken 1 0); [lia..|apply costs_log_pdf]. }
  destruct (embedding_result _ _ _); simpl.
  - eapply (costs_trans 1 0 0 1); [apply costs_log_pdf|].
    eapply (costs_trans 0 1 0 0); [apply costs_log_embedding|].
    apply costs_set_cache.
  - eapply (costs_trans 1 0 0 1); [apply costs_log_pdf|]. apply costs_log_embedding.
Qed.

Lemma costs_resolve env (item : Item) s : costs 1 2 s (snd (resolve env item s)).
Proof.
  assert (Htext : forall s1, costs 1 1 s s1 ->
    costs 1 2 s (snd ((text <- lift (getitem item "name") ;;
      _get_text_embedding env
        (if has_truthy item "description"
         then text +:+ ": " +:+ default "" (item !! "description") else text))%py s1))).
  { intros s1 H1. run. destruct (getitem item "name"); simpl.
    - rewrite _get_text_embedding_eval. simpl.
      eapply (costs_trans 1 1 0 1); [exact H1|]. apply costs_log_embedding.
    - apply (costs_weaken 1 1); [lia..|exact H1]. }
  unfold resolve.
  destruct (has_truthy item "documentPath").
  - unfold bind at 1. unfold bind at 1. unfold lift at 1.
    destruct (getitem item "documentPath") as [p|].
    2:{ apply (costs_weaken 0 0); [lia..|apply costs_refl]. }
    rewrite _get_document_embedding_eval.
    pose proof (costs_document_embedding env p s) as Hd.
    destruct (document_embedding_result env p s) as [r s1]. simpl in Hd |- *.
    unfold bind at 1. unfold lift at 1.
    destruct (not_embedding env r) as [[]|e]; simpl; auto;
      (apply (costs_weaken 1 1); [lia..|exact Hd]).
  - unfold bind at 1. unfold ret at 1. unfold bind at 1. unfold lift at 1. simpl.
    apply Htext. apply (costs_weaken 0 0); [lia..|apply costs_refl].
Qed.

Lemma costs_embed_items env items : forall acc s,
  costs (length items) (2 * length items) s (snd (embed_items env items acc s)).
Proof.
  induction items as [|item items IH]; intros acc s; cbn [embed_items].
  - apply costs_refl.
  - unfold bind at 1. pose proof (costs_resolve env item s) as Hr.
    assert (Hw : costs (length (item :: items)) (2 * length (item :: items)) s
                   (snd (resolve env item s))).
    { apply (costs_weaken 1 2); [simpl; lia..|exact Hr]. }
    destruct (resolve env item s) as [[[e|]|ex] s1]; simpl snd in Hr, Hw |- *;
      [| |exact Hw].
    + run. destruct (getitem item "id"); simpl snd; [|exact Hw].
      replace (length (item :: items)) with (1 + length items) by reflexivity.
      replace (2 * (1 + length items)) with (2 + 2 * length items) by lia.
      eapply costs_trans; [exact Hr|]. apply IH.
    + run. destruct (getitem item "name"); simpl snd; [|exact Hw].
      replace (length (item :: items)) with (1 + length items) by reflexivity.
      replace (2 * (1 + length items)) with (2 + 2 * length items) by lia.
      eapply costs_trans; [exact Hr|]. apply IH.
Qed.

(** X17: one call of [compute_distances] on [n] items opens at most [n]
    documents and sends at most [2*n] texts to the embedding provider,
    none longer than 8191 characters, whatever the items, the state
    and the outcome; it never requests a completion. *)
Theorem compute_distances_call_budget
    (env : Env) (items : list Item) (level_id : option string) (s : State) :
  exists pdfs inputs,
    pdf_calls (snd (compute_distances env items level_id s)) = pdf_calls s ++ pdfs /\
    length pdfs <= length items /\
    embedding_calls (snd (compute_distances env items level_id s))
    = embedding_calls s ++ inputs /\
    length inputs <= 2 * length items /\
    Forall (fun t => String.length t <= N.to_nat 8191) inputs /\
    completion_calls (snd (compute_distances env items level_id s)) = completion_calls s.
Proof.
  rewrite compute_distances_eval.
  pose proof (costs_embed_items env items [] s) as H.
  destruct (embed_items env items [] s) as [[ie|e] s1]; simpl in *;
    destruct H as [(l1 & H1 & L1) (l2 & H2 & L2 & F2) H3];
    exists l1, l2; repeat split; auto.
Qed.

(** The bound of two provider calls for one item is reached. *)
Example two_provider_calls_for_one_item :
  length (embedding_calls (snd (compute_distances scalar_env [item_doc] None demo_state)))
  = 2.
Proof. vm_compute. reflexivity. Qed.

(** ** The keys of the table *)

Lemma all_pairs_elem ks a b : (a, b) ∈ all_pairs ks -> a ∈ ks /\ b ∈ ks.
Proof.
  induction ks as [|k ks IH]; simpl; intros H; [inversion H|].
  apply elem_of_app in H as [H|H].
  - apply list_elem_of_fmap in H as (x & [= -> ->] & Hx). split; [left|now right].
  - destruct (IH H). split; now right.
Qed.

Lemma all_pairs_oriented ks :
  NoDup ks ->
  NoDup (all_pairs ks) /\
  Forall (fun p => p.1 <> p.2 /\ (p.2, p.1) ∉ all_pairs ks) (all_pairs ks).
Proof.
  intros Hnd. rewrite Forall_forall. revert Hnd.
  induction ks as [|k ks IH]; intros Hnd; simpl.
  - split; [constructor|]. intros p H. inversion H.
  - inversion Hnd as [|? ? Hk Hks]; subst. destruct (IH Hks) as [IH1 IH2]. split.
    + apply NoDup_app. split; [|split; [|exact IH1]].
      * apply NoDup_fmap_2; [|exact Hks]. intros x y [=]. assumption.
      * intros [a b] H1 H2. apply list_elem_of_fmap in H1 as (x & [= -> ->] & Hx).
        apply all_pairs_elem in H2 as [H2 _]. contradiction.
    + intros [a b] H. simpl. apply elem_of_app in H as [H|H].
      * apply list_elem_of_fmap in H as (x & [= -> ->] & Hx). split.
        -- intros ->. contradiction.
        -- intros H'. apply elem_of_app in H' as [H'|H'].
           ++ apply list_elem_of_fmap in H' as (y & [= -> ->] & Hy). contradiction.
           ++ apply all_pairs_elem in H' as [_ H']. contradiction.
      * destruct (IH2 (a, b) H) as [Hne Hrev]. simpl in Hne, Hrev. split; [exact Hne|].
        intros H'. apply elem_of_app in H' as [H'|H']; [|contradiction].
        apply list_elem_of_fmap in H' as (y & [= -> ->] & Hy).
        apply all_pairs_elem in H as [_ H]. contradiction.
Qed.

(** X18: in every table returned, no key occurs twice, no key pairs an
    id with itself, and a pair of ids is never present in both
    orders. *)
Theorem table_keys_oriented
    (env : Env) (items : list Item) (level_id : option string) (s : State) :
  match compute_distances env items level_id s with
  | (Ok t, _) =>
      NoDup (dict_keys t) /\
      Forall (fun p => p.1 <> p.2 /\ (p.2, p.1) ∉ dict_keys t) (dict_keys t)
  | (Raise _, _) => False
  end.
Proof.
  rewrite compute_distances_eval.
  destruct (embed_items env items [] s) as [[ie|e] s1] eqn:E.
  - rewrite entry_keys. apply all_pairs_oriented.
    eapply embed_items_NoDup; [|exact E]. constructor.
  - split; constructor.
Qed.

Lemma dict_get_entries ie l p :
  p ∈ l -> dict_get p (map (entry ie) l) = Some (snd (entry ie p)).
Proof.
  induction l as [|q l IH]; intros H; [inversion H|]. simpl.
  destruct (decide (p = q)) as [->|Hne]; [reflexivity|].
  apply elem_of_cons in H as [?|H]; [contradiction|auto].
Qed.

Lemma dict_get_Some_key {K V : Type} `{EqDecision K} (k : K) (v : V) (d : odict K V) :
  dict_get k d = Some v -> k ∈ dict_keys d.
Proof.
  induction d as [|[k' v'] d IH]; simpl; [discriminate|].
  destruct (decide (k = k')) as [<-|]; [left|right; auto].
Qed.

(** X19: when the first loop completes with the embeddings [ea] of
    [a] and [eb] of [b], and [a] comes before [b], the table maps
    [(a, b)] to the distance of [ea] and [eb] and has nothing under
    [(b, a)]. *)
Theorem table_lookup
    (env : Env) (items : list Item) (level_id : option string) (s s' : State)
    (ie : odict string np.ndarray) (a b : string) (ea eb : np.ndarray) :
  embed_items env items [] s = (Ok ie, s') ->
  dict_get a ie = Some ea -> dict_get b ie = Some eb ->
  (a, b) ∈ all_pairs (dict_keys ie) ->
  exists t, compute_distances env items level_id s = (Ok t, s') /\
            dict_get (a, b) t = Some (_compute_distance ea eb) /\
            dict_get (b, a) t = None.
Proof.
  intros E Ha Hb Hin. rewrite compute_distances_eval, E. eexists. split; [reflexivity|].
  split.
  - rewrite (dict_get_entries ie _ (a, b) Hin). unfold entry. simpl. now rewrite Ha, Hb.
  - destruct (dict_get (b, a) _) eqn:Hg; [|reflexivity]. exfalso.
    apply dict_get_Some_key in Hg. rewrite entry_keys in Hg.
    assert (Hnd : NoDup (dict_keys ie))
      by (eapply embed_items_NoDup; [|exact E]; constructor).
    destruct (all_pairs_oriented _ Hnd) as [_ Ho].
    rewrite Forall_forall in Ho. destruct (Ho (a, b) Hin) as [_ Hrev].
    contradiction.
Qed.

Lemma table_lookup_witness :
  exists t,
    compute_distances demo_env [item_cat; item_dog] None demo_state
    = (Ok t, snd (embed_items demo_env [item_cat; item_dog] [] demo_state)) /\
    dict_get ("a", "b") t = Some (_compute_distance unit_x unit_y) /\
    dict_get ("b", "a") t = None.
Proof.
  apply (table_lookup demo_env [item_cat; item_dog] None demo_state _
           [("a", unit_x); ("b", unit_y)] "a" "b" unit_x unit_y).
  - vm_compute. reflexivity.
  - reflexivity.
  - reflexivity.
  - left.
Defined.

(** ** Corrupted embeddings *)

Lemma add_nan_r x : add x S754_nan = S754_nan.
Proof. destruct x; reflexivity. Qed.

Lemma accumulate_nan l :
  fold_left (fun acc xy => add acc (mul (fst xy) (snd xy))) l S754_nan = S754_nan.
Proof. induction l as [|p l IH]; simpl; auto. Qed.

Lemma dot_aligned_nan_l a : forall b acc,
  length a = length b -> In S754_nan a ->
  fold_left (fun acc xy => add acc (mul (fst xy) (snd xy))) (combine a b) acc = S754_nan.
Proof.
  induction a as [|x a IH]; intros [|y b] acc Hlen Hin; simpl in *; try contradiction;
    try discriminate.
  destruct Hin as [->|Hin].
  - change (mul S754_nan y) with S754_nan. rewrite add_nan_r. apply accumulate_nan.
  - apply IH; [lia|assumption].
Qed.

(** X20: a vector with a NaN component is at distance 1 from every
    vector of the same dimension, itself included: the NaN goes
    through the dot product and the division, and [min(1, nan)] keeps
    the 1. *)
Theorem nan_component_distance_one (a b : np.ndarray) :
  length a = length b -> In S754_nan a \/ In S754_nan b ->
  _compute_distance a b = PyInt 1.
Proof.
  intros Hlen [H|H].
  - apply distance_of_nan. unfold similarity, np.dot. rewrite Hlen, Nat.eqb_refl.
    unfold np.dot_aligned. rewrite (dot_aligned_nan_l a b zero Hlen H). reflexivity.
  - rewrite _compute_distance_comm.
    apply distance_of_nan. unfold similarity, np.dot. rewrite Hlen, Nat.eqb_refl.
    unfold np.dot_aligned. rewrite (dot_aligned_nan_l b a zero (eq_sym Hlen) H).
    reflexivity.
Qed.

Lemma nan_component_distance_one_witness :
  length nan_vector = length unit_x /\
  _compute_distance nan_vector unit_x = PyInt 1 /\
  _compute_distance nan_vector nan_vector = PyInt 1.
Proof.
  split; [reflexivity|]. split.
  - apply (nan_component_distance_one nan_vector unit_x); [reflexivity|]. left. left.
    reflexivity.
  - apply (nan_component_distance_one nan_vector nan_vector); [reflexivity|]. left. left.
    reflexivity.
Defined.
